(** * MoltDAO governance client (moltdao.js): model and properties

    The client is a thin layer of remote calls.  Its operations are
    embedded as programs of a small monad that records, in order, every
    event the operation causes outside the process (read calls, submitted
    transactions, confirmation waits, console output, provider creation)
    and that either returns a value or throws a JavaScript exception.
    The remote ledger is a record of response functions, one per ABI
    entry, each answering with a value or with a failure. *)

From Stdlib Require Import ZArith NArith String Ascii List Bool Lia Sorted.
From Stdlib Require Import DecimalString DecimalN DecimalPos.
Import ListNotations.

Local Open Scope string_scope.
Local Open Scope list_scope.
Local Open Scope Z_scope.

(** ** Exceptions, outcomes and the event-recording monad *)

(** A thrown JavaScript error: [new Error(msg)], or the [TypeError] the
    runtime raises on a property read of [undefined].  [message] is the
    [e.message] the handlers of the source read. *)
Inductive exn : Type :=
| JsError (msg : string)
| JsTypeError (msg : string).

Definition message (e : exn) : string :=
  match e with
  | JsError m => m
  | JsTypeError m => m
  end.

(** What an awaited call or a whole operation ends with. *)
Inductive outcome (A : Type) : Type :=
| Ok (a : A)
| Throw (e : exn).

Arguments Ok {A} a.
Arguments Throw {A} e.

Definition is_throw {A : Type} (o : outcome A) : bool :=
  match o with
  | Ok _ => false
  | Throw _ => true
  end.

Definition address := string.

(** The entries of GOVERNANCE_ABI and ERC20_ABI, with their arguments. *)
Inductive method : Type :=
| m_proposalCount
| m_getProposal (id : Z)
| m_vote (proposalId : Z) (support : bool)
| m_hasUserVoted (id : Z) (who : address)
| m_isProposalActive (id : Z)
| m_getVotingPower (who : address)
| m_getProposalResult (id : Z)
| m_createProposal (title description : string)
| m_balanceOf (who : address)
| m_decimals
| m_symbol
| m_transfer (to : address) (amount : Z).

(** Everything an operation does that is visible outside the process. *)
Inductive event : Type :=
| ProviderCreated (rpc : string)
| EthCall (target : address) (m : method)
| SendTransaction (from target : address) (m : method)
| TxWait (hash : string)
| ConsoleError (text detail : string).

Definition is_write (e : event) : bool :=
  match e with
  | SendTransaction _ _ _ => true
  | _ => false
  end.

Definition is_log (e : event) : bool :=
  match e with
  | ConsoleError _ _ => true
  | _ => false
  end.

Definition trace := list event.

(** A program: the events it emitted, in order, and how it ended. *)
Definition M (A : Type) : Type := (trace * outcome A)%type.

Definition ret {A : Type} (a : A) : M A := ([], Ok a).

Definition throw {A : Type} (e : exn) : M A := ([], Throw e).

Definition bind {A B : Type} (m : M A) (f : A -> M B) : M B :=
  match m with
  | (t, Ok a) => let (t', r) := f a in (t ++ t', r)
  | (t, Throw e) => (t, Throw e)
  end.

(** [try { m } catch (e) { h e }] *)
Definition try_catch {A : Type} (m : M A) (h : exn -> M A) : M A :=
  match m with
  | (t, Ok a) => (t, Ok a)
  | (t, Throw e) => let (t', r) := h e in (t ++ t', r)
  end.

Definition emit (e : event) : M unit := ([e], Ok tt).

(** An awaited remote interaction: the event, then the remote's answer. *)
Definition await {A : Type} (e : event) (answer : outcome A) : M A :=
  ([e], answer).

Declare Scope js_scope.
Delimit Scope js_scope with js.
Notation "x <- m ;; k" := (bind m (fun x => k))
  (at level 100, m at next level, right associativity) : js_scope.
Notation "m ;;; k" := (bind m (fun _ => k))
  (at level 100, right associativity) : js_scope.
Notation "' pat <- m ;; k" :=
  (bind m (fun x => match x with pat => k end))
  (at level 100, pat pattern, m at next level, right associativity) : js_scope.
Local Open Scope js_scope.

Definition events {A : Type} (m : M A) : trace := fst m.
Definition result {A : Type} (m : M A) : outcome A := snd m.

Definition writes {A : Type} (m : M A) : trace := filter is_write (events m).
Definition logged {A : Type} (m : M A) : trace := filter is_log (events m).

(** ** JavaScript values the source relies on *)

Module Js.

(** Truthiness of a possibly-undefined string: [undefined] and the
    empty string are falsy. *)
Definition truthy (v : option string) : bool :=
  match v with
  | Some s => negb (String.eqb s "")
  | None => false
  end.

(** [a || b] on possibly-undefined strings. *)
Definition or_else (a b : option string) : option string :=
  if truthy a then a else b.

(** [Number(x)] for a bigint [x]: the nearest IEEE-754 double, ties to even.
    A double that holds an integer is represented by that integer.  Every
    value below 2^53 in magnitude is kept; above, the 53 leading bits are
    kept and the rest rounded (magnitudes stay far below 2^1024 for the
    256-bit values the ABI delivers, so Infinity does not arise). *)
Definition round_double (z : Z) : Z :=
  let a := Z.abs z in
  let bits := Z.log2 a + 1 in
  if bits <=? 53 then z
  else
    let e := bits - 53 in
    let q := a / 2 ^ e in
    let r := a mod 2 ^ e in
    let half := 2 ^ (e - 1) in
    let q' := if (half <? r) || ((r =? half) && Z.odd q) then q + 1 else q in
    Z.sgn z * (q' * 2 ^ e).

Definition Number (x : Z) : Z := round_double x.

(** Double multiplication of two integer-valued doubles (correctly rounded). *)
Definition mul (a b : Z) : Z := round_double (a * b).

(** [new Date(ms)]: a time value, or [None] for an Invalid Date, which
    TimeClip yields beyond 8.64e15 ms. *)
Definition Date (ms : Z) : option Z :=
  if Z.abs ms <=? 8640000000000000 then Some ms else None.

(** [x.toString()] for a bigint, also the text a template literal inserts
    for an integer (numbers print this way below 1e21). *)
Definition toString (z : Z) : string :=
  if z <? 0 then String "-" (NilZero.string_of_uint (N.to_uint (Z.to_N (- z))))
  else NilZero.string_of_uint (N.to_uint (Z.to_N z)).

(** [arr[i]] for an array literal and a bigint or number index [i]:
    the element at that position, [undefined] elsewhere. *)
Definition index {A : Type} (arr : list A) (i : Z) : option A :=
  if i <? 0 then None else nth_error arr (Z.to_nat i).

End Js.

(** ** The ethers unit conversions the client calls

    [ethers.formatUnits] and [ethers.parseUnits] belong to the ethers v6
    library the source requires, not to the repository.  They are written
    here after the library's fixed-point routines: [formatUnits] prints
    the integer with [decimals] fractional digits and then trims zeros,
    always leaving one digit on each side of the point; [parseUnits]
    reads an optional sign, a whole part and an optional fractional part
    and scales by ten to the [decimals].  Both reject more than 80
    decimals.  Values formatted by the client are results of [uint256]
    ABI entries, which lie inside the 512-bit width ethers formats with,
    so the width check is written for [parseUnits] only, whose input is
    free text. *)

Module Ethers.

Definition is_digit (c : ascii) : bool :=
  existsb (Ascii.eqb c)
    ["0"; "1"; "2"; "3"; "4"; "5"; "6"; "7"; "8"; "9"]%char.

Definition digit_value (c : ascii) : N := (N_of_ascii c - 48)%N.

Definition digits (l : list ascii) : Prop :=
  Forall (fun c => is_digit c = true) l.

Definition digit_step (acc : N) (c : ascii) : N :=
  (10 * acc + digit_value c)%N.

(** Value of a run of decimal digits, most significant first. *)
Definition digits_value (l : list ascii) : N := fold_left digit_step l 0%N.

Definition zeros (k : nat) : list ascii := repeat "0"%char k.

(** [while (str[0] === "0" && str[1] !== ".") str = str.substring(1)] *)
Fixpoint trim_leading (str : list ascii) : list ascii :=
  match str with
  | c0 :: rest =>
      if Ascii.eqb c0 "0" then
        match rest with
        | c1 :: _ => if Ascii.eqb c1 "." then str else trim_leading rest
        | [] => trim_leading rest
        end
      else str
  | [] => []
  end.

(** The same loop run from the other end of the string:
    [while (str[len - 1] === "0" && str[len - 2] !== ".")]. *)
Definition trim_trailing (str : list ascii) : list ascii :=
  rev (trim_leading (rev str)).

(** The printing routine of a fixed-point value. *)
Definition fixed_toString (val : Z) (decimals : nat) : string :=
  let negative := if val <? 0 then ["-"%char] else [] in
  let str := list_ascii_of_string (Js.toString (Z.abs val)) in
  match decimals with
  | O => string_of_list_ascii (negative ++ str)
  | S _ =>
      let str := zeros (S decimals - length str) ++ str in
      let index := (length str - decimals)%nat in
      let str := firstn index str ++ "."%char :: skipn index str in
      let str := trim_leading str in
      let str := trim_trailing str in
      string_of_list_ascii (negative ++ str)
  end.

Definition max_decimals : Z := 80.

(** [ethers.formatUnits(value, unit)] with a numeric [unit]. *)
Definition formatUnits (value : Z) (unit : Z) : outcome string :=
  if max_decimals <? unit then
    Throw (JsTypeError "invalid FixedNumber decimals (too large)")
  else Ok (fixed_toString value (Z.to_nat unit)).

(** Splits at the first point, if there is one. *)
Fixpoint split_point (s : list ascii) : list ascii * option (list ascii) :=
  match s with
  | [] => ([], None)
  | c :: rest =>
      if Ascii.eqb c "." then ([], Some rest)
      else let (w, d) := split_point rest in (c :: w, d)
  end.

(** [ethers.parseUnits(value, unit)] with a numeric [unit]: the text is
    an optional minus sign, a run of digits, an optional point and a
    second run of digits, with at least one digit in all; the digits
    beyond [unit] fractional places must all be zero. *)
Definition parseUnits (value : string) (unit : Z) : outcome Z :=
  let decimals := Z.to_nat unit in
  let s := list_ascii_of_string value in
  let (negative, body) :=
    match s with
    | c :: rest => if Ascii.eqb c "-" then (true, rest) else (false, s)
    | [] => (false, s)
    end in
  let (whole, point) := split_point body in
  let decimal := match point with Some d => d | None => [] end in
  if negb (forallb is_digit whole && forallb is_digit decimal)
     || (length whole + length decimal =? 0)%nat
  then Throw (JsTypeError "invalid FixedNumber string value")
  else if max_decimals <? unit
  then Throw (JsTypeError "invalid FixedNumber decimals (too large)")
  else if negb (forallb (Ascii.eqb "0") (skipn decimals decimal))
  then Throw (JsError "too many decimals for format")
  else
    let decimal :=
      firstn decimals (decimal ++ zeros (decimals - length decimal)) in
    let magnitude := Z.of_N (digits_value (whole ++ decimal)) in
    let v := if negative then - magnitude else magnitude in
    if (v <? - 2 ^ 511) || (2 ^ 511 <=? v)
    then Throw (JsError "overflow")
    else Ok v.

End Ethers.

(** ** Configuration: the NETWORKS table *)

Module Network.

Record contracts_t : Type := {
  token : address;
  splitter : address;
  governance : address;
  usdc : option address  (* [None]: an entry that defines no usdc *)
}.

Record t : Type := {
  chainId : Z;
  name : string;
  rpc : string;
  explorer : string;
  contracts : contracts_t
}.

End Network.

Definition NETWORKS : list (string * Network.t) :=
  [ ("testnet",
     {| Network.chainId := 84532;
        Network.name := "Base Sepolia";
        Network.rpc := "https://sepolia.base.org";
        Network.explorer := "https://sepolia.basescan.org";
        Network.contracts :=
          {| Network.token := "0x036CbD53842c5426634e7929541eC2318f3dCF7e";
             Network.splitter := "0xcf9933743D2312ea1383574907cF1A9c6fE4808d";
             Network.governance := "0xa5070Da0d76F1872D1c112D6e71f3666598314DF";
             Network.usdc := Some "0x036CbD53842c5426634e7929541eC2318f3dCF7e" |} |}) ].

(** NETWORKS is an object literal, so [NETWORKS[key]] also finds what
    Object.prototype provides.  Those values (functions, and the
    prototype itself under [__proto__]) are not [undefined] and carry none
    of the properties [rpc], [contracts], [explorer]. *)
Definition Object_prototype_keys : list string :=
  [ "constructor"; "__defineGetter__"; "__defineSetter__"; "hasOwnProperty";
    "__lookupGetter__"; "__lookupSetter__"; "isPrototypeOf";
    "propertyIsEnumerable"; "toString"; "valueOf"; "__proto__";
    "toLocaleString" ].

Inductive property (A : Type) : Type :=
| Own (a : A)
| Inherited
| Undefined.

Arguments Own {A} a.
Arguments Inherited {A}.
Arguments Undefined {A}.

Fixpoint own_property {A : Type} (obj : list (string * A)) (key : string)
  : option A :=
  match obj with
  | [] => None
  | (k, v) :: rest => if String.eqb k key then Some v else own_property rest key
  end.

Definition get_property {A : Type} (obj : list (string * A)) (key : string)
  : property A :=
  match own_property obj key with
  | Some v => Own v
  | None =>
      if existsb (String.eqb key) Object_prototype_keys then Inherited
      else Undefined
  end.

(** The closed set of supported network names. *)
Definition supported (selector : string) : bool :=
  existsb (String.eqb selector) (map fst NETWORKS).

(** ** What the remote ledger returns *)

Module AbiProposal.
Record t : Type := {
  id : Z;
  title : string;
  description : string;
  startTime : Z;
  endTime : Z;
  yesVotes : Z;
  noVotes : Z;
  cancelled : bool;
  status : Z
}.
End AbiProposal.

Module AbiResult.
Record t : Type := {
  ended : bool;
  passed : bool;
  yesVotes : Z;
  noVotes : Z;
  totalVotes : Z
}.
End AbiResult.

(** The response to a submitted transaction: its hash, and what
    [tx.wait()] ends with. *)
Module Tx.
Record t : Type := {
  hash : string;
  wait : outcome unit
}.
End Tx.

(** The ledger as the client sees it: one response function per ABI
    entry, indexed by the contract address called (and, for a
    transaction, by the sender).  Integer results are the bigints ethers
    decodes ([uint256], and [uint8] for [status] and [decimals]). *)
Module Ledger.
Record t : Type := {
  proposalCount : address -> outcome Z;
  getProposal : address -> Z -> outcome AbiProposal.t;
  getProposalResult : address -> Z -> outcome AbiResult.t;
  isProposalActive : address -> Z -> outcome bool;
  hasUserVoted : address -> Z -> address -> outcome bool;
  getVotingPower : address -> address -> outcome Z;
  vote : address -> address -> Z -> bool -> outcome Tx.t;
  createProposal : address -> address -> string -> string -> outcome Tx.t;
  symbol : address -> outcome string;
  decimals : address -> outcome Z;
  balanceOf : address -> address -> outcome Z;
  transfer : address -> address -> address -> Z -> outcome Tx.t
}.
End Ledger.

(** What the process itself supplies: the environment variable and the
    derivation of an address from a private key, which [new ethers.Wallet]
    performs and which throws on a malformed key. *)
Record Host : Type := {
  MOLTDAO_PRIVATE_KEY : option string;
  computeAddress : string -> outcome address
}.

(** ** The values the client returns *)

Module Proposal.
Record t : Type := {
  id : Z;
  title : string;
  description : string;
  startTime : option Z;
  endTime : option Z;
  yesVotes : string;
  noVotes : string;
  cancelled : bool;
  status : option string;  (* [None] is JavaScript's [undefined] *)
  isActive : bool;
  passed : bool;
  totalVotes : string
}.
End Proposal.

Module VotingPower.
Record t : Type := {
  address : string;
  votingPower : string;
  raw : string
}.
End VotingPower.

Module Treasury.
Record token_t : Type := {
  address : string;
  symbol : string;
  splitterBalance : string
}.
(** [result.usdc] is either [{address, balance}] or [{error}]. *)
Inductive usdc_t : Type :=
| Balance (address : string) (balance : string)
| Error (error : string).
Record t : Type := {
  token : token_t;
  usdc : option usdc_t  (* [None]: the property is absent *)
}.
End Treasury.

Module VoteResult.
Record t : Type := {
  success : bool;
  proposalId : Z;
  support : string;
  votingPower : string;
  txHash : string;
  explorer : string
}.
End VoteResult.

Module DonateResult.
Record t : Type := {
  success : bool;
  amount : string;
  to : string;
  txHash : string;
  explorer : string
}.
End DonateResult.

Module CreateResult.
Record t : Type := {
  success : bool;
  proposalId : Z;
  title : string;
  txHash : string;
  explorer : string
}.
End CreateResult.

(** ** The client: class MoltDAOSkill *)

Record Wallet : Type := {
  wallet_key : string;
  wallet_address : address
}.

(** The fields the constructor sets on [this].  [contracts] and
    [explorer] are [None] when the constructor stored [undefined]. *)
Record MoltDAOSkill : Type := {
  network : string;
  privateKey : option string;
  provider : string;
  contracts : option Network.contracts_t;
  explorer : option string;
  wallet : option Wallet
}.

Definition lift {A : Type} (o : outcome A) : M A := ([], o).

(** A template literal prints [undefined] for an absent value. *)
Definition interpolate (v : option string) : string :=
  match v with
  | Some s => s
  | None => "undefined"
  end.

(** [new ethers.JsonRpcProvider(url)]; ethers falls back to its default
    endpoint when [url] is absent. *)
Definition new_JsonRpcProvider (url : option string) : M string :=
  let u := match url with Some u => u | None => "http://localhost:8545" end in
  emit (ProviderCreated u) ;;; ret u.

(** [new ethers.Wallet(key, provider)] *)
Definition new_Wallet (host : Host) (key : string) : M Wallet :=
  a <- lift (computeAddress host key) ;;
  ret {| wallet_key := key; wallet_address := a |}.

Record Config : Type := {
  config_network : option string;
  config_privateKey : option string
}.

(** [constructor(config = {})] *)
Definition constructor (host : Host) (config : Config) : M MoltDAOSkill :=
  let network :=
    match Js.or_else (config_network config) (Some "testnet") with
    | Some n => n
    | None => "testnet"
    end in
  let privateKey :=
    Js.or_else (config_privateKey config) (MOLTDAO_PRIVATE_KEY host) in
  match get_property NETWORKS network with
  | Undefined =>
      throw (JsTypeError "Cannot read properties of undefined (reading 'rpc')")
  | found =>
      let networkConfig :=
        match found with Own c => Some c | _ => None end in
      provider <- new_JsonRpcProvider (option_map Network.rpc networkConfig) ;;
      wallet <-
        (match privateKey with
         | Some key =>
             if Js.truthy privateKey
             then w <- new_Wallet host key ;; ret (Some w)
             else ret None
         | None => ret None
         end) ;;
      ret {| network := network;
             privateKey := privateKey;
             provider := provider;
             contracts := option_map Network.contracts networkConfig;
             explorer := option_map Network.explorer networkConfig;
             wallet := wallet |}
  end.

(** [this.contracts.<field>]: a TypeError when [this.contracts] is
    [undefined]. *)
Definition this_contracts (this : MoltDAOSkill) (field : string)
  : M Network.contracts_t :=
  match contracts this with
  | Some k => ret k
  | None =>
      throw (JsTypeError
               ("Cannot read properties of undefined (reading '" ++ field ++ "')")%string)
  end.

(** [new ethers.Contract(target, abi, runner)]: ethers rejects a target
    that is not a string. *)
Definition new_Contract (target : option address) : M address :=
  match target with
  | Some a => ret a
  | None => throw (JsTypeError "invalid value for Contract target")
  end.

(** [Promise.all([a, b, c])]: the three calls are all started, in order;
    the join yields the three values or rejects with a failure among
    them (the first in list order here). *)
Definition Promise_all3 {A B C : Type} (a : M A) (b : M B) (c : M C)
  : M (A * B * C) :=
  (events a ++ events b ++ events c,
   match result a, result b, result c with
   | Ok x, Ok y, Ok z => Ok (x, y, z)
   | Throw e, _, _ => Throw e
   | _, Throw e, _ => Throw e
   | _, _, Throw e => Throw e
   end).

(** The ids [1, 2, ..., n] the loop of getProposals visits. *)
Definition ids_upto (n : Z) : list Z :=
  map Z.of_nat (seq 1 (Z.to_nat n)).

Definition status_labels : list string :=
  ["Pending"; "Active"; "Ended"; "Cancelled"].

Section Operations.

Variable chain : Ledger.t.
Variable this : MoltDAOSkill.

(** *** Read functions *)

(** The body of the [try] block of getProposals for one id. *)
Definition fetchProposal (gov : address) (i : Z) : M Proposal.t :=
  p <- await (EthCall gov (m_getProposal i)) (Ledger.getProposal chain gov i) ;;
  res <- await (EthCall gov (m_getProposalResult i))
               (Ledger.getProposalResult chain gov i) ;;
  isActive <- await (EthCall gov (m_isProposalActive i))
                    (Ledger.isProposalActive chain gov i) ;;
  yes <- lift (Ethers.formatUnits (AbiProposal.yesVotes p) 18) ;;
  no <- lift (Ethers.formatUnits (AbiProposal.noVotes p) 18) ;;
  total <- lift (Ethers.formatUnits (AbiResult.totalVotes res) 18) ;;
  ret {| Proposal.id := Js.Number (AbiProposal.id p);
         Proposal.title := AbiProposal.title p;
         Proposal.description := AbiProposal.description p;
         Proposal.startTime :=
           Js.Date (Js.mul (Js.Number (AbiProposal.startTime p)) 1000);
         Proposal.endTime :=
           Js.Date (Js.mul (Js.Number (AbiProposal.endTime p)) 1000);
         Proposal.yesVotes := yes;
         Proposal.noVotes := no;
         Proposal.cancelled := AbiProposal.cancelled p;
         Proposal.status := Js.index status_labels (AbiProposal.status p);
         Proposal.isActive := isActive;
         Proposal.passed := AbiResult.passed res;
         Proposal.totalVotes := total |}.

(** The [for] loop of getProposals over the ids still to visit;
    [proposals] is the array built so far. *)
Fixpoint fetch_loop (gov : address) (ids : list Z) (proposals : list Proposal.t)
  : M (list Proposal.t) :=
  match ids with
  | [] => ret proposals
  | i :: rest =>
      proposals' <-
        try_catch
          (p <- fetchProposal gov i ;; ret (proposals ++ [p]))
          (fun e =>
             emit (ConsoleError
                     ("Error fetching proposal " ++ Js.toString i ++ ":")%string
                     (message e)) ;;;
             ret proposals) ;;
      fetch_loop gov rest proposals'
  end.

(** [async getProposals()].  The loop counter is a double: for a count
    below 2^53 its increments are exact and the loop visits
    1 .. Number(count), while from 2^53 on the counter cannot pass 2^53
    and the source does not return.  The array the loop fills holds at
    most 2^32 - 1 elements.  The statements on the listing are therefore
    made for counts below 2^32. *)
Definition getProposals : M (list Proposal.t) :=
  k <- this_contracts this "governance" ;;
  let gov := Network.governance k in
  count <- await (EthCall gov m_proposalCount) (Ledger.proposalCount chain gov) ;;
  fetch_loop gov (ids_upto (Js.Number count)) [].

(** [async getVotingPower(address)] *)
Definition getVotingPower (who : address) : M VotingPower.t :=
  k <- this_contracts this "governance" ;;
  let gov := Network.governance k in
  power <- await (EthCall gov (m_getVotingPower who))
                 (Ledger.getVotingPower chain gov who) ;;
  scaled <- lift (Ethers.formatUnits power 18) ;;
  ret {| VotingPower.address := who;
         VotingPower.votingPower := scaled;
         VotingPower.raw := Js.toString power |}.

(** [async hasVoted(proposalId, address)] *)
Definition hasVoted (proposalId : Z) (who : address) : M bool :=
  k <- this_contracts this "governance" ;;
  let gov := Network.governance k in
  await (EthCall gov (m_hasUserVoted proposalId who))
        (Ledger.hasUserVoted chain gov proposalId who).

(** [async getTreasury()] *)
Definition getTreasury : M Treasury.t :=
  k <- this_contracts this "token" ;;
  let token := Network.token k in
  '(symbol, decimals, splitterBalance) <-
    Promise_all3
      (await (EthCall token m_symbol) (Ledger.symbol chain token))
      (await (EthCall token m_decimals) (Ledger.decimals chain token))
      (await (EthCall token (m_balanceOf (Network.splitter k)))
             (Ledger.balanceOf chain token (Network.splitter k))) ;;
  formatted <- lift (Ethers.formatUnits splitterBalance decimals) ;;
  let result :=
    {| Treasury.token :=
         {| Treasury.address := token;
            Treasury.symbol := symbol;
            Treasury.splitterBalance := formatted |};
       Treasury.usdc := None |} in
  if String.eqb (network this) "testnet" && Js.truthy (Network.usdc k) then
    try_catch
      (usdc <- new_Contract (Network.usdc k) ;;
       usdcBalance <- await (EthCall usdc (m_balanceOf (Network.governance k)))
                            (Ledger.balanceOf chain usdc (Network.governance k)) ;;
       balance <- lift (Ethers.formatUnits usdcBalance 6) ;;
       ret {| Treasury.token := Treasury.token result;
              Treasury.usdc := Some (Treasury.Balance usdc balance) |})
      (fun e =>
         ret {| Treasury.token := Treasury.token result;
                Treasury.usdc := Some (Treasury.Error (message e)) |})
  else ret result.

(** *** Write functions *)

(** [async vote(proposalId, support)] *)
Definition vote (proposalId : Z) (support : bool) : M VoteResult.t :=
  match wallet this with
  | None =>
      throw (JsError
        "No private key configured. Set MOLTDAO_PRIVATE_KEY environment variable.")
  | Some w =>
      k <- this_contracts this "governance" ;;
      let gov := Network.governance k in
      let me := wallet_address w in
      (* Check if proposal is active *)
      isActive <- await (EthCall gov (m_isProposalActive proposalId))
                        (Ledger.isProposalActive chain gov proposalId) ;;
      if negb isActive then
        throw (JsError ("Proposal " ++ Js.toString proposalId
                          ++ " is not active for voting")%string)
      else
      (* Check if already voted *)
      voted <- await (EthCall gov (m_hasUserVoted proposalId me))
                     (Ledger.hasUserVoted chain gov proposalId me) ;;
      if (voted : bool) then
        throw (JsError ("Already voted on proposal "
                          ++ Js.toString proposalId)%string)
      else
      (* Check voting power *)
      power <- await (EthCall gov (m_getVotingPower me))
                     (Ledger.getVotingPower chain gov me) ;;
      if power =? 0 then
        throw (JsError "No voting power. You need USDC tokens to vote.")
      else
      (* Submit vote *)
      tx <- await (SendTransaction me gov (m_vote proposalId support))
                  (Ledger.vote chain gov me proposalId support) ;;
      receipt <- await (TxWait (Tx.hash tx)) (Tx.wait tx) ;;
      scaled <- lift (Ethers.formatUnits power 18) ;;
      ret {| VoteResult.success := true;
             VoteResult.proposalId := proposalId;
             VoteResult.support := if support then "FOR" else "AGAINST";
             VoteResult.votingPower := scaled;
             VoteResult.txHash := Tx.hash tx;
             VoteResult.explorer :=
               (interpolate (explorer this) ++ "/tx/" ++ Tx.hash tx)%string |}
  end.

(** [async donateUSDC(amount)].  [amount] is given by its text
    [amount.toString()], which is all the function uses of it. *)
Definition donateUSDC (amount : string) : M DonateResult.t :=
  if negb (String.eqb (network this) "testnet") then
    throw (JsError "USDC donation only available on testnet")
  else
    match wallet this with
    | None => throw (JsError "No private key configured")
    | Some w =>
        k <- this_contracts this "usdc" ;;
        usdc <- new_Contract (Network.usdc k) ;;
        amountWei <- lift (Ethers.parseUnits amount 6) ;;
        let gov := Network.governance k in
        (* Transfer to governance contract *)
        tx <- await (SendTransaction (wallet_address w) usdc
                       (m_transfer gov amountWei))
                    (Ledger.transfer chain usdc (wallet_address w) gov amountWei) ;;
        receipt <- await (TxWait (Tx.hash tx)) (Tx.wait tx) ;;
        ret {| DonateResult.success := true;
               DonateResult.amount := (amount ++ " USDC")%string;
               DonateResult.to := gov;
               DonateResult.txHash := Tx.hash tx;
               DonateResult.explorer :=
                 (interpolate (explorer this) ++ "/tx/" ++ Tx.hash tx)%string |}
    end.

(** [async createProposal(title, description)] *)
Definition createProposal (title description : string) : M CreateResult.t :=
  match wallet this with
  | None => throw (JsError "No private key configured")
  | Some w =>
      k <- this_contracts this "governance" ;;
      let gov := Network.governance k in
      tx <- await (SendTransaction (wallet_address w) gov
                     (m_createProposal title description))
                  (Ledger.createProposal chain gov (wallet_address w)
                     title description) ;;
      receipt <- await (TxWait (Tx.hash tx)) (Tx.wait tx) ;;
      (* Get the new proposal ID from events *)
      proposalCount <- await (EthCall gov m_proposalCount)
                             (Ledger.proposalCount chain gov) ;;
      ret {| CreateResult.success := true;
             CreateResult.proposalId := Js.Number proposalCount;
             CreateResult.title := title;
             CreateResult.txHash := Tx.hash tx;
             CreateResult.explorer :=
               (interpolate (explorer this) ++ "/tx/" ++ Tx.hash tx)%string |}
  end.

End Operations.

(** ** What the statements below are phrased with *)

(** The record getProposals pushes for one id, from the three answers
    of the ledger. *)
Definition assemble (p : AbiProposal.t) (res : AbiResult.t) (isActive : bool)
  : Proposal.t :=
  {| Proposal.id := Js.Number (AbiProposal.id p);
     Proposal.title := AbiProposal.title p;
     Proposal.description := AbiProposal.description p;
     Proposal.startTime :=
       Js.Date (Js.mul (Js.Number (AbiProposal.startTime p)) 1000);
     Proposal.endTime :=
       Js.Date (Js.mul (Js.Number (AbiProposal.endTime p)) 1000);
     Proposal.yesVotes := Ethers.fixed_toString (AbiProposal.yesVotes p) 18;
     Proposal.noVotes := Ethers.fixed_toString (AbiProposal.noVotes p) 18;
     Proposal.cancelled := AbiProposal.cancelled p;
     Proposal.status := Js.index status_labels (AbiProposal.status p);
     Proposal.isActive := isActive;
     Proposal.passed := AbiResult.passed res;
     Proposal.totalVotes := Ethers.fixed_toString (AbiResult.totalVotes res) 18 |}.

(** The fetch of id [i] fails when one of its three reads fails;
    [fetch_error] is the failure the [catch] clause then receives. *)
Definition fetch_error (chain : Ledger.t) (gov : address) (i : Z) : option exn :=
  match Ledger.getProposal chain gov i with
  | Throw e => Some e
  | Ok _ =>
      match Ledger.getProposalResult chain gov i with
      | Throw e => Some e
      | Ok _ =>
          match Ledger.isProposalActive chain gov i with
          | Throw e => Some e
          | Ok _ => None
          end
      end
  end.

Definition fetch_fails (chain : Ledger.t) (gov : address) (i : Z) : bool :=
  is_throw (Ledger.getProposal chain gov i)
  || is_throw (Ledger.getProposalResult chain gov i)
  || is_throw (Ledger.isProposalActive chain gov i).

Definition fetched (chain : Ledger.t) (gov : address) (i : Z)
  : option Proposal.t :=
  match Ledger.getProposal chain gov i,
        Ledger.getProposalResult chain gov i,
        Ledger.isProposalActive chain gov i with
  | Ok p, Ok res, Ok a => Some (assemble p res a)
  | _, _, _ => None
  end.

(** The successfully fetched proposals of a list of ids, in its order. *)
Definition collect (chain : Ledger.t) (gov : address) (ids : list Z)
  : list Proposal.t :=
  flat_map
    (fun i => match fetched chain gov i with Some p => [p] | None => [] end)
    ids.

(** The line the [catch] clause logs for a failed id. *)
Definition fetch_log (chain : Ledger.t) (gov : address) (i : Z) : event :=
  ConsoleError ("Error fetching proposal " ++ Js.toString i ++ ":")%string
    (match fetch_error chain gov i with Some e => message e | None => "" end).

(** The same client without its signing credential. *)
Definition without_credential (this : MoltDAOSkill) : MoltDAOSkill :=
  {| network := network this;
     privateKey := None;
     provider := provider this;
     contracts := contracts this;
     explorer := explorer this;
     wallet := None |}.

(** The same client holding the credential of wallet [w]. *)
Definition with_credential (this : MoltDAOSkill) (w : Wallet) : MoltDAOSkill :=
  {| network := network this;
     privateKey := Some (wallet_key w);
     provider := provider this;
     contracts := contracts this;
     explorer := explorer this;
     wallet := Some w |}.

(** The positional reading of a status code: the four labels for the
    codes 0 to 3, and no label for any other code. *)
Definition status_label (code : Z) : option string :=
  match code with
  | 0 => Some "Pending"
  | 1 => Some "Active"
  | 2 => Some "Ended"
  | 3 => Some "Cancelled"
  | _ => None
  end.

(** The messages of the errors the write functions throw themselves. *)
Definition no_signer_message : string :=
  "No private key configured. Set MOLTDAO_PRIVATE_KEY environment variable.".

Definition not_active_message (proposalId : Z) : string :=
  "Proposal " ++ Js.toString proposalId ++ " is not active for voting".

Definition already_voted_message (proposalId : Z) : string :=
  "Already voted on proposal " ++ Js.toString proposalId.

Definition no_power_message : string :=
  "No voting power. You need USDC tokens to vote.".

Definition no_key_message : string := "No private key configured".

Definition testnet_only_message : string :=
  "USDC donation only available on testnet".

(** The three reads that precede the submission in vote. *)
Definition vote_reads (gov me : address) (proposalId : Z) : trace :=
  [ EthCall gov (m_isProposalActive proposalId);
    EthCall gov (m_hasUserVoted proposalId me);
    EthCall gov (m_getVotingPower me) ].

(** The three reads getTreasury joins. *)
Definition treasury_reads (k : Network.contracts_t) : trace :=
  [ EthCall (Network.token k) m_symbol;
    EthCall (Network.token k) m_decimals;
    EthCall (Network.token k) (m_balanceOf (Network.splitter k)) ].

(** ** A concrete ledger and concrete clients *)

Module Sample.

Definition testnet : Network.contracts_t :=
  {| Network.token := "0x036CbD53842c5426634e7929541eC2318f3dCF7e";
     Network.splitter := "0xcf9933743D2312ea1383574907cF1A9c6fE4808d";
     Network.governance := "0xa5070Da0d76F1872D1c112D6e71f3666598314DF";
     Network.usdc := Some "0x036CbD53842c5426634e7929541eC2318f3dCF7e" |}.

(** A network entry that defines no usdc. *)
Definition bare : Network.contracts_t :=
  {| Network.token := Network.token testnet;
     Network.splitter := Network.splitter testnet;
     Network.governance := Network.governance testnet;
     Network.usdc := None |}.

Definition gov : address := Network.governance testnet.

Definition proposal (i st : Z) : AbiProposal.t :=
  {| AbiProposal.id := i;
     AbiProposal.title := "Fund the reef";
     AbiProposal.description := "Plant coral";
     AbiProposal.startTime := 1700000000;
     AbiProposal.endTime := 1700003600;
     AbiProposal.yesVotes := 1500000000000000000;
     AbiProposal.noVotes := 0;
     AbiProposal.cancelled := false;
     AbiProposal.status := st |}.

Definition tally : AbiResult.t :=
  {| AbiResult.ended := false;
     AbiResult.passed := true;
     AbiResult.yesVotes := 1500000000000000000;
     AbiResult.noVotes := 0;
     AbiResult.totalVotes := 1500000000000000000 |}.

Definition mined (h : string) : Tx.t := {| Tx.hash := h; Tx.wait := Ok tt |}.

(** [count] proposals, the fetch of id [bad] failing, every proposal
    with status code [st]; [active], [voted] and [power] answer the
    guards of vote; the token reports [dec] decimals; the balance held
    by the governance contract can be read only when [aux] is set. *)
Definition ledger (count bad st : Z) (active voted : bool) (power dec : Z)
    (aux : bool) : Ledger.t :=
  {| Ledger.proposalCount := fun _ => Ok count;
     Ledger.getProposal := fun _ i =>
       if i =? bad then Throw (JsError "timeout") else Ok (proposal i st);
     Ledger.getProposalResult := fun _ _ => Ok tally;
     Ledger.isProposalActive := fun _ _ => Ok active;
     Ledger.hasUserVoted := fun _ _ _ => Ok voted;
     Ledger.getVotingPower := fun _ _ => Ok power;
     Ledger.vote := fun _ _ _ _ => Ok (mined "0xabc");
     Ledger.createProposal := fun _ _ _ _ => Ok (mined "0xdef");
     Ledger.symbol := fun _ => Ok "USDC";
     Ledger.decimals := fun _ => Ok dec;
     Ledger.balanceOf := fun _ holder =>
       if String.eqb holder gov && negb aux
       then Throw (JsError "missing revert data")
       else Ok 1000000;
     Ledger.transfer := fun _ _ _ _ => Ok (mined "0x123") |}.

Definition signer : Wallet :=
  {| wallet_key := "0x01"; wallet_address := "0xA11CE" |}.

Definition client (k : option Network.contracts_t) (w : option Wallet)
  : MoltDAOSkill :=
  {| network := "testnet";
     privateKey := option_map wallet_key w;
     provider := "https://sepolia.base.org";
     contracts := k;
     explorer := Some "https://sepolia.basescan.org";
     wallet := w |}.

Definition host : Host :=
  {| MOLTDAO_PRIVATE_KEY := None;
     computeAddress := fun _ => Ok (wallet_address signer) |}.

(** Clients on testnet, without and with a signer, and one on the
    entry without usdc. *)
Definition reader : MoltDAOSkill := client (Some testnet) None.
Definition voter : MoltDAOSkill := client (Some testnet) (Some signer).
Definition bare_reader : MoltDAOSkill := client (Some bare) None.

(** No proposal yet. *)
Definition empty_chain : Ledger.t := ledger 0 0 1 true false 1 6 true.
(** Five proposals, the fetch of the third failing. *)
Definition flaky_chain : Ledger.t := ledger 5 3 1 true false 1 6 true.
(** Two active proposals. *)
Definition open_chain : Ledger.t := ledger 2 0 1 true false 1 6 true.
(** One proposal whose status code is 7. *)
Definition odd_chain : Ledger.t := ledger 1 0 7 true false 1 6 true.
(** One proposal that is not active. *)
Definition closed_chain : Ledger.t := ledger 1 0 2 false false 1 6 true.
(** The signer has no voting power. *)
Definition powerless_chain : Ledger.t := ledger 1 0 1 true false 0 6 true.
(** The balance of the governance contract cannot be read. *)
Definition broken_aux_chain : Ledger.t := ledger 1 0 1 true false 1 6 false.
(** The token reports 18 decimals. *)
Definition wide_chain : Ledger.t := ledger 1 0 1 true false 1 18 true.

End Sample.

(** ** Further vocabulary and cases *)

Definition is_read (e : event) : bool :=
  match e with
  | EthCall _ _ => true
  | _ => false
  end.

Definition reads {A : Type} (m : M A) : trace := filter is_read (events m).

(** How many of its three reads the fetch of id [i] gets to make: it
    stops at the first one that fails. *)
Definition fetch_calls (chain : Ledger.t) (gov : address) (i : Z) : nat :=
  match Ledger.getProposal chain gov i with
  | Throw _ => 1
  | Ok _ =>
      match Ledger.getProposalResult chain gov i with
      | Throw _ => 2
      | Ok _ => 3
      end
  end.

(** The three reads of the fetch of id [i], in the order they are made. *)
Definition fetch_reads (gov : address) (i : Z) : trace :=
  [ EthCall gov (m_getProposal i);
    EthCall gov (m_getProposalResult i);
    EthCall gov (m_isProposalActive i) ].

(** The range of a [uint256] argument; ethers refuses to encode a
    value outside it, before any request is made. *)
Definition uint256 (v : Z) : Prop := 0 <= v < 2 ^ 256.

(** The link vote, donateUSDC and createProposal put in their result. *)
Definition explorer_link (this : MoltDAOSkill) (hash : string) : string :=
  interpolate (explorer this) ++ "/tx/" ++ hash.

(** The message of the TypeError a read of [this.contracts.<field>]
    raises when [this.contracts] is undefined. *)
Definition no_contracts_message (field : string) : string :=
  "Cannot read properties of undefined (reading '" ++ field ++ "')".

Module Cases.

(** A signer on a client whose network is not testnet, with the same
    contract addresses. *)
Definition offnet_voter : MoltDAOSkill :=
  {| network := "mainnet";
     privateKey := Some "0x01";
     provider := "https://mainnet.base.org";
     contracts := Some Sample.testnet;
     explorer := Some "https://basescan.org";
     wallet := Some Sample.signer |}.

(** What the constructor leaves for the selector [constructor], here
    with a signer. *)
Definition hollow_voter : MoltDAOSkill :=
  {| network := "constructor";
     privateKey := Some "0x01";
     provider := "http://localhost:8545";
     contracts := None;
     explorer := None;
     wallet := Some Sample.signer |}.

(** A host whose environment holds a key, and for which the key [bad]
    is malformed. *)
Definition env_host : Host :=
  {| MOLTDAO_PRIVATE_KEY := Some "0x02";
     computeAddress := fun key =>
       if String.eqb key "bad"
       then Throw (JsTypeError "invalid private key")
       else Ok ("0xADD2E55:" ++ key)%string |}.

Definition reverted (h : string) : Tx.t :=
  {| Tx.hash := h; Tx.wait := Throw (JsError "transaction execution reverted") |}.

(** The count cannot be read. *)
Definition down_chain : Ledger.t :=
  {| Ledger.proposalCount := fun _ => Throw (JsError "could not detect network");
     Ledger.getProposal := Ledger.getProposal Sample.open_chain;
     Ledger.getProposalResult := Ledger.getProposalResult Sample.open_chain;
     Ledger.isProposalActive := Ledger.isProposalActive Sample.open_chain;
     Ledger.hasUserVoted := Ledger.hasUserVoted Sample.open_chain;
     Ledger.getVotingPower := Ledger.getVotingPower Sample.open_chain;
     Ledger.vote := Ledger.vote Sample.open_chain;
     Ledger.createProposal := Ledger.createProposal Sample.open_chain;
     Ledger.symbol := fun _ => Throw (JsError "could not detect network");
     Ledger.decimals := Ledger.decimals Sample.open_chain;
     Ledger.balanceOf := Ledger.balanceOf Sample.open_chain;
     Ledger.transfer := Ledger.transfer Sample.open_chain |}.

(** Every transaction is mined and reverts. *)
Definition reverting_chain : Ledger.t :=
  {| Ledger.proposalCount := Ledger.proposalCount Sample.open_chain;
     Ledger.getProposal := Ledger.getProposal Sample.open_chain;
     Ledger.getProposalResult := Ledger.getProposalResult Sample.open_chain;
     Ledger.isProposalActive := Ledger.isProposalActive Sample.open_chain;
     Ledger.hasUserVoted := Ledger.hasUserVoted Sample.open_chain;
     Ledger.getVotingPower := Ledger.getVotingPower Sample.open_chain;
     Ledger.vote := fun _ _ _ _ => Ok (reverted "0xabc");
     Ledger.createProposal := fun _ _ _ _ => Ok (reverted "0xdef");
     Ledger.symbol := Ledger.symbol Sample.open_chain;
     Ledger.decimals := Ledger.decimals Sample.open_chain;
     Ledger.balanceOf := Ledger.balanceOf Sample.open_chain;
     Ledger.transfer := fun _ _ _ _ => Ok (reverted "0x123") |}.

(** The signer has voted already. *)
Definition voted_chain : Ledger.t := Sample.ledger 2 0 1 true true 1 6 true.

End Cases.

(** * Properties *)

(** ** The monad *)

Lemma bind_ok {A B : Type} (m : M A) (f : A -> M B) (a : A) :
  result m = Ok a ->
  bind m f = (events m ++ events (f a), result (f a)).
Proof.
  destruct m as [t o]; simpl; intros ->; simpl.
  destruct (f a); reflexivity.
Qed.

Lemma result_bind_ok {A B : Type} (m : M A) (f : A -> M B) (a : A) :
  result m = Ok a -> result (bind m f) = result (f a).
Proof. intros H. rewrite (bind_ok _ _ _ H). reflexivity. Qed.

Lemma events_bind_ok {A B : Type} (m : M A) (f : A -> M B) (a : A) :
  result m = Ok a -> events (bind m f) = events m ++ events (f a).
Proof. intros H. rewrite (bind_ok _ _ _ H). reflexivity. Qed.

(** ** Formatting with a constant precision never fails *)

Lemma formatUnits_18 (v : Z) :
  Ethers.formatUnits v 18 = Ok (Ethers.fixed_toString v 18).
Proof. reflexivity. Qed.

Lemma formatUnits_6 (v : Z) :
  Ethers.formatUnits v 6 = Ok (Ethers.fixed_toString v 6).
Proof. reflexivity. Qed.

(** ** One iteration of the loop of getProposals *)

Section Fetch.

Variable chain : Ledger.t.
Variable gov : address.

Lemma fetch_fails_error (i : Z) :
  fetch_fails chain gov i = true <-> fetch_error chain gov i <> None.
Proof.
  unfold fetch_fails, fetch_error.
  destruct (Ledger.getProposal chain gov i),
           (Ledger.getProposalResult chain gov i),
           (Ledger.isProposalActive chain gov i); simpl;
    split; congruence.
Qed.

Lemma fetch_fails_fetched (i : Z) :
  fetch_fails chain gov i = false <-> fetched chain gov i <> None.
Proof.
  unfold fetch_fails, fetched.
  destruct (Ledger.getProposal chain gov i),
           (Ledger.getProposalResult chain gov i),
           (Ledger.isProposalActive chain gov i); simpl;
    split; congruence.
Qed.

Lemma fetchProposal_result (i : Z) :
  result (fetchProposal chain gov i) =
  match fetch_error chain gov i, fetched chain gov i with
  | Some e, _ => Throw e
  | None, Some p => Ok p
  | None, None => Throw (JsError "")
  end.
Proof.
  unfold fetchProposal, fetch_error, fetched, await.
  destruct (Ledger.getProposal chain gov i),
           (Ledger.getProposalResult chain gov i),
           (Ledger.isProposalActive chain gov i); reflexivity.
Qed.

Lemma fetchProposal_logged (i : Z) :
  filter is_log (events (fetchProposal chain gov i)) = [].
Proof.
  unfold fetchProposal, await.
  destruct (Ledger.getProposal chain gov i),
           (Ledger.getProposalResult chain gov i),
           (Ledger.isProposalActive chain gov i); reflexivity.
Qed.

Lemma fetchProposal_writes (i : Z) :
  filter is_write (events (fetchProposal chain gov i)) = [].
Proof.
  unfold fetchProposal, await.
  destruct (Ledger.getProposal chain gov i),
           (Ledger.getProposalResult chain gov i),
           (Ledger.isProposalActive chain gov i); reflexivity.
Qed.

Lemma try_fetch_spec (i : Z) (proposals : list Proposal.t) :
  let m :=
    try_catch
      (p <- fetchProposal chain gov i ;; ret (proposals ++ [p]))
      (fun e =>
         emit (ConsoleError
                 ("Error fetching proposal " ++ Js.toString i ++ ":")%string
                 (message e)) ;;;
         ret proposals) in
  result m
    = Ok (proposals
            ++ match fetched chain gov i with Some p => [p] | None => [] end)
  /\ filter is_log (events m)
    = (if fetch_fails chain gov i then [fetch_log chain gov i] else [])
  /\ filter is_write (events m) = [].
Proof.
  unfold fetchProposal, fetched, fetch_fails, fetch_log, fetch_error, await.
  destruct (Ledger.getProposal chain gov i),
           (Ledger.getProposalResult chain gov i),
           (Ledger.isProposalActive chain gov i);
    cbn; rewrite ?app_nil_r; repeat split.
Qed.

(** The loop never throws: it returns what it had plus what it could
    fetch, and logs one line per failed id, in the order of the ids. *)
Lemma fetch_loop_spec (ids : list Z) :
  forall proposals,
    result (fetch_loop chain gov ids proposals)
      = Ok (proposals ++ collect chain gov ids)
    /\ filter is_log (events (fetch_loop chain gov ids proposals))
      = map (fetch_log chain gov) (filter (fetch_fails chain gov) ids)
    /\ filter is_write (events (fetch_loop chain gov ids proposals)) = [].
Proof.
  induction ids as [|i rest IH]; intros proposals.
  - simpl. rewrite app_nil_r. auto.
  - cbn [fetch_loop collect flat_map filter].
    destruct (try_fetch_spec i proposals) as (R & L & W).
    cbv zeta in R, L, W.
    rewrite (result_bind_ok _ _ _ R), (events_bind_ok _ _ _ R).
    destruct (IH (proposals
                    ++ match fetched chain gov i with
                       | Some p => [p] | None => [] end)) as (R' & L' & W').
    rewrite R', !filter_app, L, L', W, W', <- app_assoc.
    repeat split.
    destruct (fetch_fails chain gov i); reflexivity.
Qed.

End Fetch.

(** ** getProposals *)

Lemma Number_exact (z : Z) : 0 <= z <= 2 ^ 53 -> Js.Number z = z.
Proof.
  intros [H0 H1]. unfold Js.Number, Js.round_double.
  rewrite Z.abs_eq by assumption.
  destruct (Z.eq_dec z (2 ^ 53)) as [->|Hne].
  - reflexivity.
  - destruct (Z.leb_spec (Z.log2 z + 1) 53) as [_|Hb]; [reflexivity|].
    exfalso. destruct (Z.eq_dec z 0) as [->|Hz]; [simpl in Hb; lia|].
    assert (Hlt : z < 2 ^ 53) by lia.
    apply Z.log2_lt_pow2 in Hlt; lia.
Qed.

(** What getProposals does once the count is known. *)
Lemma getProposals_spec (chain : Ledger.t) (this : MoltDAOSkill)
    (k : Network.contracts_t) (count : Z) :
  contracts this = Some k ->
  Ledger.proposalCount chain (Network.governance k) = Ok count ->
  let gov := Network.governance k in
  let ids := ids_upto (Js.Number count) in
  result (getProposals chain this) = Ok (collect chain gov ids)
  /\ logged (getProposals chain this)
     = map (fetch_log chain gov) (filter (fetch_fails chain gov) ids)
  /\ writes (getProposals chain this) = [].
Proof.
  intros Hk Hc gov ids.
  destruct (fetch_loop_spec chain gov ids []) as (R & L & W).
  subst gov ids.
  unfold getProposals, this_contracts, writes, logged, await.
  rewrite Hk. cbn [bind ret]. rewrite Hc.
  destruct (fetch_loop chain (Network.governance k)
              (ids_upto (Js.Number count)) []) as [t o].
  unfold result, events in *. cbn [fst snd] in *.
  cbn [app filter is_log is_write].
  auto.
Qed.

(** C9: against a governance contract that reports a count of 0,
    getProposals returns the empty sequence and raises nothing; its only
    remote interaction is the read of the count. *)
Theorem getProposals_count_zero (chain : Ledger.t) (this : MoltDAOSkill)
    (k : Network.contracts_t) :
  contracts this = Some k ->
  Ledger.proposalCount chain (Network.governance k) = Ok 0 ->
  getProposals chain this
  = ([EthCall (Network.governance k) m_proposalCount], Ok []).
Proof.
  intros Hk Hc. unfold getProposals, this_contracts, await.
  rewrite Hk. cbn [bind ret]. rewrite Hc. reflexivity.
Qed.

Lemma getProposals_count_zero_witness :
  getProposals (Sample.empty_chain)
               Sample.reader
  = ([EthCall Sample.gov m_proposalCount], Ok []).
Proof.
  apply (getProposals_count_zero
           (Sample.empty_chain)
           Sample.reader
           Sample.testnet); reflexivity.
Defined.

Lemma ids_upto_length (n : Z) : length (ids_upto n) = Z.to_nat n.
Proof. unfold ids_upto. rewrite length_map, length_seq. reflexivity. Qed.

Lemma ids_upto_In (n i : Z) : In i (ids_upto n) <-> 1 <= i <= n.
Proof.
  unfold ids_upto. rewrite in_map_iff. split.
  - intros (j & <- & Hj). apply in_seq in Hj. lia.
  - intros H. exists (Z.to_nat i). split; [lia|]. apply in_seq. lia.
Qed.

Lemma seq_ascending (len start : nat) :
  StronglySorted Z.lt (map Z.of_nat (seq start len)).
Proof.
  revert start. induction len as [|len IH]; intros start; simpl.
  - constructor.
  - constructor; [apply IH|].
    apply Forall_forall. intros x Hx. apply in_map_iff in Hx.
    destruct Hx as (j & <- & Hj). apply in_seq in Hj. lia.
Qed.

Lemma filter_ascending (f : Z -> bool) (l : list Z) :
  StronglySorted Z.lt l -> StronglySorted Z.lt (filter f l).
Proof.
  induction 1 as [|x l Hs IH Hx]; simpl; [constructor|].
  destruct (f x); [|assumption].
  constructor; [assumption|].
  apply Forall_forall. intros y Hy. apply filter_In in Hy.
  rewrite Forall_forall in Hx. apply Hx. tauto.
Qed.

Lemma collect_fetched (chain : Ledger.t) (gov : address) (ids : list Z) :
  map Some (collect chain gov ids)
  = map (fetched chain gov)
        (filter (fun i => negb (fetch_fails chain gov i)) ids).
Proof.
  induction ids as [|i rest IH]; [reflexivity|].
  unfold collect in *. cbn [flat_map filter].
  rewrite map_app, IH.
  destruct (fetch_fails_fetched chain gov i) as [H1 H2].
  destruct (fetch_fails chain gov i), (fetched chain gov i) eqn:Ep; simpl;
    rewrite ?Ep; try reflexivity; exfalso.
  - assert (E : true = false) by (apply H2; discriminate). discriminate E.
  - apply H1; reflexivity.
Qed.

(** C3: with [count] proposals (a count that an array can hold, below
    2^32), of which the ids in [F] fail to be fetched, getProposals still
    returns: it logs one error per id of [F], leaves those ids out, and
    returns the proposals of the other ids in ascending order of id; the
    result has [count] minus the size of [F] entries. *)
Theorem getProposals_partial_failure (chain : Ledger.t) (this : MoltDAOSkill)
    (k : Network.contracts_t) (count : Z) :
  contracts this = Some k ->
  Ledger.proposalCount chain (Network.governance k) = Ok count ->
  0 <= count < 2 ^ 32 ->
  let gov := Network.governance k in
  let F := filter (fetch_fails chain gov) (ids_upto count) in
  let kept :=
    filter (fun i => negb (fetch_fails chain gov i)) (ids_upto count) in
  exists ps,
    result (getProposals chain this) = Ok ps
    /\ map Some ps = map (fetched chain gov) kept
    /\ StronglySorted Z.lt kept
    /\ (forall i, In i kept <-> 1 <= i <= count /\ ~ In i F)
    /\ Z.of_nat (length ps) = count - Z.of_nat (length F)
    /\ logged (getProposals chain this) = map (fetch_log chain gov) F.
Proof.
  intros Hk Hc Hn gov F kept.
  destruct (getProposals_spec chain this k count Hk Hc) as (R & L & _).
  rewrite (Number_exact count) in R, L by lia.
  exists (collect chain gov (ids_upto count)).
  split; [exact R|].
  split; [apply collect_fetched|].
  split; [apply filter_ascending, seq_ascending|].
  split.
  - intros i. unfold kept, F. rewrite !filter_In, ids_upto_In.
    destruct (fetch_fails chain gov i); simpl; intuition congruence.
  - split; [|exact L].
    assert (E : length (collect chain gov (ids_upto count)) = length kept).
    { rewrite <- (length_map Some), collect_fetched, length_map. reflexivity. }
    rewrite E.
    pose proof (filter_length (fetch_fails chain gov) (ids_upto count)) as T.
    rewrite ids_upto_length in T. fold F in T. fold kept in T. lia.
Qed.

Lemma getProposals_partial_failure_witness :
  exists ps,
    result (getProposals Sample.flaky_chain Sample.reader) = Ok ps
    /\ map Some ps = map (fetched Sample.flaky_chain Sample.gov) [1; 2; 4; 5]
    /\ Z.of_nat (length ps) = 5 - 1
    /\ logged (getProposals Sample.flaky_chain Sample.reader)
       = [ConsoleError "Error fetching proposal 3:" "timeout"].
Proof.
  destruct (getProposals_partial_failure
              Sample.flaky_chain Sample.reader Sample.testnet 5)
    as (ps & R & P & _ & _ & N & L);
    [reflexivity | reflexivity | lia |].
  exists ps. repeat split; assumption.
Defined.

Lemma index_status_labels (code : Z) :
  Js.index status_labels code = status_label code.
Proof.
  unfold Js.index, status_label, status_labels.
  destruct code as [|p|p]; try reflexivity.
  change (Z.pos p <? 0) with false. cbv iota.
  destruct (Z.le_gt_cases (Z.pos p) 3) as [Hs|Hb].
  - assert (H : Z.pos p = 1 \/ Z.pos p = 2 \/ Z.pos p = 3) by lia.
    destruct H as [H|[H|H]]; injection H as ->; reflexivity.
  - assert (Hn : nth_error ["Pending"; "Active"; "Ended"; "Cancelled"]
                   (Z.to_nat (Z.pos p)) = None)
      by (apply nth_error_None; simpl; lia).
    rewrite Hn.
    destruct p as [[q|q|]|[q|q|]|]; try reflexivity; lia.
Qed.

Lemma collect_In (chain : Ledger.t) (gov : address) (ids : list Z)
    (pr : Proposal.t) :
  In pr (collect chain gov ids)
  <-> exists i, In i ids /\ fetched chain gov i = Some pr.
Proof.
  unfold collect. rewrite in_flat_map. split.
  - intros (i & Hi & Hp). exists i. split; [assumption|].
    destruct (fetched chain gov i); simpl in Hp; [|contradiction].
    destruct Hp as [->|[]]. reflexivity.
  - intros (i & Hi & Hp). exists i. split; [assumption|].
    rewrite Hp. left. reflexivity.
Qed.

Lemma filter_none {A : Type} (f : A -> bool) (l : list A) :
  (forall x, In x l -> f x = false) -> filter f l = [].
Proof.
  induction l as [|x l IH]; intros H; [reflexivity|].
  cbn [filter]. rewrite (H x) by (left; reflexivity).
  apply IH. intros y Hy. apply H. right. exact Hy.
Qed.

(** C1 (as the code has it): for a count below 2^32, every proposal
    getProposals returns carries the label that stands at the position
    of the remote status code, Pending, Active, Ended, Cancelled for 0,
    1, 2, 3, and carries no label (the field is undefined) for any other
    code.  A code outside 0..3 raises nothing and logs nothing: the call
    returns, the proposal is in the result like any other, and the lines
    logged are exactly those of the ids one of whose reads failed, which
    an id whose three reads succeeded is never among, whatever its
    status code. *)
Theorem getProposals_status_positional (chain : Ledger.t)
    (this : MoltDAOSkill) (k : Network.contracts_t) (count : Z) :
  contracts this = Some k ->
  Ledger.proposalCount chain (Network.governance k) = Ok count ->
  0 <= count < 2 ^ 32 ->
  let gov := Network.governance k in
  let F := filter (fetch_fails chain gov) (ids_upto count) in
  exists ps,
    result (getProposals chain this) = Ok ps
    /\ logged (getProposals chain this) = map (fetch_log chain gov) F
    /\ ((forall i, 1 <= i <= count -> fetch_fails chain gov i = false) ->
        logged (getProposals chain this) = [])
    /\ (forall pr, In pr ps ->
        exists i p,
          1 <= i <= count
          /\ Ledger.getProposal chain gov i = Ok p
          /\ Proposal.status pr = status_label (AbiProposal.status p))
    /\ (forall i p res a,
          1 <= i <= count ->
          Ledger.getProposal chain gov i = Ok p ->
          Ledger.getProposalResult chain gov i = Ok res ->
          Ledger.isProposalActive chain gov i = Ok a ->
          In (assemble p res a) ps
          /\ Proposal.status (assemble p res a)
             = status_label (AbiProposal.status p)
          /\ ~ In i F
          /\ filter is_log (events (fetchProposal chain gov i)) = []).
Proof.
  intros Hk Hc Hn gov F.
  destruct (getProposals_spec chain this k count Hk Hc) as (R & L & _).
  rewrite (Number_exact count) in R, L by lia.
  exists (collect chain gov (ids_upto count)).
  split; [exact R|]. split; [exact L|]. split.
  { intros Hall. rewrite L.
    assert (E : filter (fetch_fails chain gov) (ids_upto count) = []).
    { apply filter_none. intros i Hi. apply ids_upto_In in Hi.
      exact (Hall i Hi). }
    exact (f_equal (map (fetch_log chain gov)) E). }
  split.
  - intros pr Hpr. apply collect_In in Hpr. destruct Hpr as (i & Hi & Hf).
    apply ids_upto_In in Hi. unfold fetched in Hf.
    destruct (Ledger.getProposal chain gov i) as [p|] eqn:Ep; [|discriminate].
    destruct (Ledger.getProposalResult chain gov i); [|discriminate].
    destruct (Ledger.isProposalActive chain gov i); [|discriminate].
    injection Hf as <-. exists i, p.
    repeat split; try lia; try assumption.
    apply index_status_labels.
  - intros i p res a Hi Ep Er Ea. split; [|split; [|split]].
    + apply collect_In. exists i. split; [apply ids_upto_In; assumption|].
      unfold fetched. rewrite Ep, Er, Ea. reflexivity.
    + apply index_status_labels.
    + unfold F. rewrite filter_In. unfold fetch_fails.
      rewrite Ep, Er, Ea. intros [_ H]. discriminate H.
    + apply fetchProposal_logged.
Qed.

Lemma getProposals_status_positional_witness :
  exists ps,
    result (getProposals Sample.open_chain Sample.reader) = Ok ps
    /\ logged (getProposals Sample.open_chain Sample.reader) = []
    /\ (forall pr, In pr ps ->
        exists i p,
          1 <= i <= 2
          /\ Ledger.getProposal Sample.open_chain Sample.gov i = Ok p
          /\ Proposal.status pr = status_label (AbiProposal.status p)).
Proof.
  destruct (getProposals_status_positional
              Sample.open_chain Sample.reader Sample.testnet 2)
    as (ps & R & L & _ & P & _);
    [reflexivity | reflexivity | lia |].
  exists ps. split; [exact R|]. split; [exact L | exact P].
Defined.

(** C1 does not hold as worded: a proposal whose remote status code is 7
    is returned with an undefined status, and nothing is raised or
    logged. *)
Lemma status_out_of_range_is_not_raised :
  Ledger.getProposal Sample.odd_chain Sample.gov 1 = Ok (Sample.proposal 1 7)
  /\ exists pr,
       result (getProposals Sample.odd_chain Sample.reader) = Ok [pr]
       /\ Proposal.status pr = None
       /\ logged (getProposals Sample.odd_chain Sample.reader) = [].
Proof.
  split; [reflexivity|].
  eexists. split; [vm_compute; reflexivity|]. split; reflexivity.
Qed.

(** ** vote *)

Ltac answer H := rewrite H; cbn [bind ret throw await lift app negb].

(** A submitted transaction implies that every guard was passed. *)
Lemma vote_write_passed_guards (chain : Ledger.t) (this : MoltDAOSkill)
    (proposalId : Z) (support : bool) :
  writes (vote chain this proposalId support) <> [] ->
  exists w k power,
    wallet this = Some w
    /\ contracts this = Some k
    /\ Ledger.isProposalActive chain (Network.governance k) proposalId
       = Ok true
    /\ Ledger.hasUserVoted chain (Network.governance k) proposalId
         (wallet_address w) = Ok false
    /\ Ledger.getVotingPower chain (Network.governance k) (wallet_address w)
       = Ok power
    /\ power <> 0.
Proof.
  unfold vote, writes, events, this_contracts, await.
  destruct (wallet this) as [w|]; [|intros H; exfalso; apply H; reflexivity].
  destruct (contracts this) as [k|];
    [|intros H; exfalso; apply H; reflexivity].
  cbn [bind ret].
  destruct (Ledger.isProposalActive chain (Network.governance k) proposalId)
    as [[|]|] eqn:Ea;
    try (intros H; exfalso; apply H; reflexivity).
  cbn [negb].
  destruct (Ledger.hasUserVoted chain (Network.governance k) proposalId
              (wallet_address w)) as [[|]|] eqn:Ev;
    try (intros H; exfalso; apply H; reflexivity).
  destruct (Ledger.getVotingPower chain (Network.governance k)
              (wallet_address w)) as [power|] eqn:Ep;
    try (intros H; exfalso; apply H; reflexivity).
  cbn [bind].
  destruct (Z.eqb_spec power 0) as [->|Hp];
    try (intros H; exfalso; apply H; reflexivity).
  intros _. exists w, k, power. auto 10.
Qed.

(** C2: vote checks, in this order, that a signer is configured, that
    the proposal is active, that the signer has not voted, and that the
    signer's voting power is not zero.  The first check that fails ends
    the call with its own error, after exactly the reads of the checks
    before it and of itself, and with no transaction submitted; a
    transaction is submitted only when all four checks passed. *)
Theorem vote_guard_sequence (chain : Ledger.t) (this : MoltDAOSkill)
    (proposalId : Z) (support : bool) :
  let m := vote chain this proposalId support in
  (wallet this = None -> m = ([], Throw (JsError no_signer_message)))
  /\ (forall w k,
        wallet this = Some w -> contracts this = Some k ->
        let gov := Network.governance k in
        let me := wallet_address w in
        (Ledger.isProposalActive chain gov proposalId = Ok false ->
         m = ([EthCall gov (m_isProposalActive proposalId)],
              Throw (JsError (not_active_message proposalId))))
        /\ (Ledger.isProposalActive chain gov proposalId = Ok true ->
            Ledger.hasUserVoted chain gov proposalId me = Ok true ->
            m = ([EthCall gov (m_isProposalActive proposalId);
                  EthCall gov (m_hasUserVoted proposalId me)],
                 Throw (JsError (already_voted_message proposalId))))
        /\ (Ledger.isProposalActive chain gov proposalId = Ok true ->
            Ledger.hasUserVoted chain gov proposalId me = Ok false ->
            Ledger.getVotingPower chain gov me = Ok 0 ->
            m = (vote_reads gov me proposalId,
                 Throw (JsError no_power_message))))
  /\ NoDup [no_signer_message; not_active_message proposalId;
            already_voted_message proposalId; no_power_message]
  /\ (writes m <> [] ->
      exists w k power,
        wallet this = Some w
        /\ contracts this = Some k
        /\ Ledger.isProposalActive chain (Network.governance k) proposalId
           = Ok true
        /\ Ledger.hasUserVoted chain (Network.governance k) proposalId
             (wallet_address w) = Ok false
        /\ Ledger.getVotingPower chain (Network.governance k)
             (wallet_address w) = Ok power
        /\ power <> 0).
Proof.
  intros m. subst m. split; [|split; [|split]].
  - intros Hw. unfold vote. rewrite Hw. reflexivity.
  - intros w k Hw Hk gov me. subst gov me.
    unfold vote, this_contracts, await. rewrite Hw, Hk. cbn [bind ret].
    split; [|split].
    + intros Ha. answer Ha. reflexivity.
    + intros Ha Hv. answer Ha. answer Hv. reflexivity.
    + intros Ha Hv Hp. answer Ha. answer Hv. answer Hp. reflexivity.
  - unfold no_signer_message, not_active_message, already_voted_message,
      no_power_message.
    repeat constructor; simpl; intuition discriminate.
  - apply vote_write_passed_guards.
Qed.

Lemma vote_guard_sequence_witness :
  vote Sample.closed_chain Sample.voter 1 true
  = ([EthCall Sample.gov (m_isProposalActive 1)],
     Throw (JsError (not_active_message 1)))
  /\ vote Sample.closed_chain (without_credential Sample.voter) 1 true
     = ([], Throw (JsError no_signer_message)).
Proof.
  split.
  - destruct (vote_guard_sequence Sample.closed_chain Sample.voter 1 true)
      as (_ & G & _).
    destruct (G Sample.signer Sample.testnet) as (A & _);
      [reflexivity | reflexivity |].
    apply A. reflexivity.
  - destruct (vote_guard_sequence Sample.closed_chain
                (without_credential Sample.voter) 1 true) as (S & _).
    apply S. reflexivity.
Defined.

(** C4: once the first three guards are passed, a voting power of
    exactly zero ends vote with the no-voting-power error and without
    any transaction, while every strictly positive voting power passes
    the guard and the vote transaction is submitted next. *)
Theorem vote_power_boundary (chain : Ledger.t) (this : MoltDAOSkill)
    (proposalId : Z) (support : bool) (w : Wallet)
    (k : Network.contracts_t) (power : Z) :
  wallet this = Some w ->
  contracts this = Some k ->
  let gov := Network.governance k in
  let me := wallet_address w in
  Ledger.isProposalActive chain gov proposalId = Ok true ->
  Ledger.hasUserVoted chain gov proposalId me = Ok false ->
  Ledger.getVotingPower chain gov me = Ok power ->
  let m := vote chain this proposalId support in
  (power = 0 ->
   m = (vote_reads gov me proposalId, Throw (JsError no_power_message))
   /\ writes m = [])
  /\ (0 < power ->
      (exists rest,
         events m
         = vote_reads gov me proposalId
             ++ SendTransaction me gov (m_vote proposalId support) :: rest)
      /\ writes m = [SendTransaction me gov (m_vote proposalId support)]).
Proof.
  intros Hw Hk gov me Ha Hv Hp m. subst m gov me.
  unfold vote, this_contracts, await, writes, events.
  rewrite Hw, Hk. cbn [bind ret].
  answer Ha. answer Hv. answer Hp.
  split.
  - intros ->. split; reflexivity.
  - intros Hpos.
    destruct (Z.eqb_spec power 0) as [E|_]; [lia|].
    destruct (Ledger.vote chain (Network.governance k) (wallet_address w)
                proposalId support) as [tx|e]; cbn.
    + destruct (Tx.wait tx); cbn; split; try reflexivity;
        eexists; reflexivity.
    + split; [eexists|]; reflexivity.
Qed.

Lemma vote_power_boundary_witness :
  writes (vote Sample.powerless_chain Sample.voter 1 true) = []
  /\ writes (vote Sample.open_chain Sample.voter 1 true)
     = [SendTransaction "0xA11CE" Sample.gov (m_vote 1 true)].
Proof.
  split.
  - destruct (vote_power_boundary Sample.powerless_chain
                Sample.voter 1 true Sample.signer Sample.testnet 0) as (Z0 & _);
      [reflexivity | reflexivity | reflexivity | reflexivity | reflexivity |].
    destruct Z0 as (_ & W); [reflexivity | exact W].
  - destruct (vote_power_boundary Sample.open_chain
                Sample.voter 1 true Sample.signer Sample.testnet 1) as (_ & P);
      [reflexivity | reflexivity | reflexivity | reflexivity | reflexivity |].
    destruct P as (_ & W); [lia | exact W].
Defined.

(** ** The write functions without a signer *)

(** C6: without a signing credential each of vote, donateUSDC and
    createProposal ends with a configuration error that says what is
    missing, and causes no event at all, hence no remote call; the read
    functions do not look at the credential and behave as they do for a
    client that holds one. *)
Theorem write_functions_require_signer (chain : Ledger.t)
    (this : MoltDAOSkill) :
  wallet this = None ->
  (forall proposalId support,
      vote chain this proposalId support
      = ([], Throw (JsError no_signer_message)))
  /\ (forall amount,
        donateUSDC chain this amount
        = ([], Throw (JsError
                        (if String.eqb (network this) "testnet"
                         then no_key_message else testnet_only_message))))
  /\ (forall title description,
        createProposal chain this title description
        = ([], Throw (JsError no_key_message)))
  /\ (forall w,
        getProposals chain this = getProposals chain (with_credential this w)
        /\ (forall who,
              getVotingPower chain this who
              = getVotingPower chain (with_credential this w) who)
        /\ (forall proposalId who,
              hasVoted chain this proposalId who
              = hasVoted chain (with_credential this w) proposalId who)
        /\ getTreasury chain this = getTreasury chain (with_credential this w)).
Proof.
  intros Hw. repeat split.
  - unfold vote. rewrite Hw. reflexivity.
  - unfold donateUSDC. rewrite Hw.
    destruct (String.eqb (network this) "testnet"); reflexivity.
  - unfold createProposal. rewrite Hw. reflexivity.
Qed.

Lemma write_functions_require_signer_witness :
  vote Sample.open_chain Sample.reader 1 true
  = ([], Throw (JsError no_signer_message))
  /\ donateUSDC Sample.open_chain Sample.reader "10"
     = ([], Throw (JsError no_key_message))
  /\ createProposal Sample.open_chain Sample.reader "Fund the reef" "Plant coral"
     = ([], Throw (JsError no_key_message))
  /\ result (getProposals Sample.open_chain Sample.reader)
     = result (getProposals Sample.open_chain
                 (with_credential Sample.reader Sample.signer)).
Proof.
  destruct (write_functions_require_signer Sample.open_chain Sample.reader)
    as (V & D & C & R);
    [reflexivity|].
  split; [apply V|]. split; [apply (D "10")|]. split; [apply C|].
  destruct (R Sample.signer) as (P & _). rewrite <- P. reflexivity.
Defined.

(** ** getTreasury *)

(** C7: when the primary reads succeed, a failing read of the usdc
    balance is recorded as an [{error}] object in the usdc field and the
    token fields (address, symbol, splitter balance) are returned all the
    same; on a network entry that defines no usdc the snapshot has no
    usdc field at all, and no secondary read is made. *)
Theorem getTreasury_secondary_read (chain : Ledger.t) (this : MoltDAOSkill)
    (k : Network.contracts_t) (sym : string) (d sb : Z) (shown : string) :
  contracts this = Some k ->
  Ledger.symbol chain (Network.token k) = Ok sym ->
  Ledger.decimals chain (Network.token k) = Ok d ->
  Ledger.balanceOf chain (Network.token k) (Network.splitter k) = Ok sb ->
  Ethers.formatUnits sb d = Ok shown ->
  let primary :=
    {| Treasury.address := Network.token k;
       Treasury.symbol := sym;
       Treasury.splitterBalance := shown |} in
  (forall u e,
      network this = "testnet" ->
      Network.usdc k = Some u -> u <> "" ->
      Ledger.balanceOf chain u (Network.governance k) = Throw e ->
      getTreasury chain this
      = (treasury_reads k ++ [EthCall u (m_balanceOf (Network.governance k))],
         Ok {| Treasury.token := primary;
               Treasury.usdc := Some (Treasury.Error (message e)) |}))
  /\ (Js.truthy (Network.usdc k) = false ->
      getTreasury chain this
      = (treasury_reads k,
         Ok {| Treasury.token := primary; Treasury.usdc := None |})).
Proof.
  intros Hk Hs Hd Hb Hf primary. subst primary.
  unfold getTreasury, this_contracts, Promise_all3, await, events, result,
    treasury_reads.
  rewrite Hk. cbn [bind ret fst snd app].
  rewrite Hs, Hd, Hb. cbn [bind ret lift app]. rewrite Hf.
  cbn [bind ret lift app].
  split.
  - intros u e Hn Hu Hne Hx. rewrite Hn, Hu.
    assert (T : Js.truthy (Some u) = true).
    { unfold Js.truthy.
      destruct (String.eqb_spec u ""); [contradiction|reflexivity]. }
    rewrite T. cbn [String.eqb Ascii.eqb Bool.eqb andb new_Contract bind ret
                      try_catch app Treasury.token].
    rewrite Hx. reflexivity.
  - intros Hu. rewrite Hu, andb_false_r. reflexivity.
Qed.

Lemma getTreasury_secondary_read_witness :
  result (getTreasury (Sample.broken_aux_chain)
            Sample.reader)
  = Ok {| Treasury.token :=
            {| Treasury.address := Network.token Sample.testnet;
               Treasury.symbol := "USDC";
               Treasury.splitterBalance := "1.0" |};
          Treasury.usdc := Some (Treasury.Error "missing revert data") |}
  /\ result (getTreasury (Sample.broken_aux_chain)
               Sample.bare_reader)
     = Ok {| Treasury.token :=
               {| Treasury.address := Network.token Sample.testnet;
                  Treasury.symbol := "USDC";
                  Treasury.splitterBalance := "1.0" |};
             Treasury.usdc := None |}.
Proof.
  split.
  - destruct (getTreasury_secondary_read
                (Sample.broken_aux_chain)
                Sample.reader
                Sample.testnet "USDC" 6 1000000 "1.0")
      as (E & _);
      [reflexivity | reflexivity | reflexivity | reflexivity | reflexivity |].
    rewrite (E (Network.token Sample.testnet) (JsError "missing revert data"));
      [reflexivity | reflexivity | reflexivity | discriminate | reflexivity].
  - destruct (getTreasury_secondary_read
                (Sample.broken_aux_chain)
                Sample.bare_reader
                Sample.bare "USDC" 6 1000000 "1.0")
      as (_ & A);
      [reflexivity | reflexivity | reflexivity | reflexivity | reflexivity |].
    rewrite A; reflexivity.
Defined.

(** ** The constructor *)

Lemma own_property_NETWORKS (selector : string) :
  supported selector = false -> own_property NETWORKS selector = None.
Proof.
  unfold supported, NETWORKS. cbn [map fst existsb own_property].
  rewrite orb_false_r, String.eqb_sym. intros ->. reflexivity.
Qed.

Lemma not_inherited (selector : string) :
  ~ In selector Object_prototype_keys ->
  existsb (String.eqb selector) Object_prototype_keys = false.
Proof.
  intros H. destruct (existsb (String.eqb selector) Object_prototype_keys) eqn:E;
    [|reflexivity].
  exfalso. apply H. apply existsb_exists in E. destruct E as (x & Hx & Hs).
  apply String.eqb_eq in Hs. subst x. assumption.
Qed.

(** C8 (as the code has it): a non-empty selector that names neither a
    supported network nor a property that NETWORKS inherits makes the
    constructor throw at once, before a provider is created and with no
    event at all; an absent or empty selector selects testnet. *)
Theorem constructor_unknown_network (host : Host) (config : Config) :
  (forall selector,
      config_network config = Some selector ->
      selector <> "" ->
      supported selector = false ->
      ~ In selector Object_prototype_keys ->
      constructor host config
      = ([], Throw (JsTypeError
                      "Cannot read properties of undefined (reading 'rpc')")))
  /\ (Js.truthy (config_network config) = false ->
      constructor host config
      = constructor host
          {| config_network := Some "testnet";
             config_privateKey := config_privateKey config |}).
Proof.
  split.
  - intros selector Hs Hne Hsup Hin. unfold constructor. rewrite Hs.
    assert (T : Js.truthy (Some selector) = true).
    { unfold Js.truthy.
      destruct (String.eqb_spec selector ""); [contradiction|reflexivity]. }
    unfold Js.or_else at 1. rewrite T.
    unfold get_property.
    rewrite (own_property_NETWORKS selector Hsup), (not_inherited selector Hin).
    reflexivity.
  - intros Hf. unfold constructor, Js.or_else. rewrite Hf. reflexivity.
Qed.

Lemma constructor_unknown_network_witness :
  constructor Sample.host
    {| config_network := Some "mainnet"; config_privateKey := Some "0x01" |}
  = ([], Throw (JsTypeError
                  "Cannot read properties of undefined (reading 'rpc')")).
Proof.
  destruct (constructor_unknown_network Sample.host
              {| config_network := Some "mainnet";
                 config_privateKey := Some "0x01" |}) as (U & _).
  apply (U "mainnet"); [reflexivity | discriminate | reflexivity |].
  unfold Object_prototype_keys. simpl. intuition discriminate.
Defined.

(** C8 does not hold as worded: the selectors [constructor] and the
    empty string are outside the supported set, yet construction
    succeeds, in the first case with a provider on the default endpoint
    of ethers and no contract addresses, in the second as testnet. *)
Lemma constructor_accepts_unsupported_selector :
  supported "constructor" = false
  /\ constructor Sample.host
       {| config_network := Some "constructor"; config_privateKey := None |}
     = ([ProviderCreated "http://localhost:8545"],
        Ok {| network := "constructor";
              privateKey := None;
              provider := "http://localhost:8545";
              contracts := None;
              explorer := None;
              wallet := None |})
  /\ supported "" = false
  /\ constructor Sample.host
       {| config_network := Some ""; config_privateKey := None |}
     = ([ProviderCreated "https://sepolia.base.org"],
        Ok Sample.reader).
Proof. repeat split. Qed.

(** ** donateUSDC and the unit conversion *)

(** C5 (as the code has it): at the fixed precision of 6, the amount 10
    becomes exactly 10_000_000 base units, which is the amount the
    transfer of donateUSDC carries; converting 10_000_000 back at the
    same precision gives the text [10.0], which converts to 10_000_000
    again. *)
Theorem donate_amount_conversion :
  Ethers.parseUnits "10" 6 = Ok 10000000
  /\ Ethers.formatUnits 10000000 6 = Ok "10.0"
  /\ Ethers.parseUnits "10.0" 6 = Ok 10000000
  /\ (forall chain this w k u,
        network this = "testnet" ->
        wallet this = Some w ->
        contracts this = Some k ->
        Network.usdc k = Some u ->
        writes (donateUSDC chain this "10")
        = [SendTransaction (wallet_address w) u
             (m_transfer (Network.governance k) 10000000)]).
Proof.
  split; [reflexivity|]. split; [reflexivity|]. split; [reflexivity|].
  intros chain this w k u Hn Hw Hk Hu.
  unfold donateUSDC, this_contracts, new_Contract, writes, events, await.
  rewrite Hn, Hw, Hk. cbn [String.eqb Ascii.eqb Bool.eqb negb bind ret].
  rewrite Hu. cbn [bind ret app].
  change (Ethers.parseUnits "10" 6) with (@Ok Z 10000000).
  cbn [lift bind ret app].
  destruct (Ledger.transfer chain u (wallet_address w) (Network.governance k)
              10000000) as [tx|e]; cbn; [|reflexivity].
  destruct (Tx.wait tx); reflexivity.
Qed.

Lemma donate_amount_conversion_witness :
  writes (donateUSDC Sample.open_chain
            Sample.voter "10")
  = [SendTransaction "0xA11CE" "0x036CbD53842c5426634e7929541eC2318f3dCF7e"
       (m_transfer Sample.gov 10000000)].
Proof.
  destruct donate_amount_conversion as (_ & _ & _ & D).
  apply (D Sample.open_chain
           Sample.voter
           Sample.signer Sample.testnet
           "0x036CbD53842c5426634e7929541eC2318f3dCF7e"); reflexivity.
Defined.

(** C5 does not hold as worded in its second half: the text that
    10_000_000 base units convert back to is not [10]. *)
Lemma round_trip_text_is_not_10 :
  Ethers.parseUnits "10" 6 = Ok 10000000
  /\ Ethers.formatUnits 10000000 6 <> Ok "10".
Proof. split; [reflexivity | discriminate]. Qed.

(** ** The text ethers prints for a fixed-point value *)

Section FixedText.

Import Ethers.

Local Open Scope N_scope.

Lemma fold_digits_acc (l : list ascii) (acc : N) :
  fold_left digit_step l acc
  = acc * 10 ^ N.of_nat (length l) + fold_left digit_step l 0.
Proof.
  revert acc. induction l as [|c l IH]; intros acc.
  - simpl. lia.
  - cbn [fold_left length]. rewrite IH, (IH (digit_step 0 c)).
    unfold digit_step. rewrite Nat2N.inj_succ, N.pow_succ_r'. lia.
Qed.

Lemma digits_value_app (l1 l2 : list ascii) :
  digits_value (l1 ++ l2)
  = digits_value l1 * 10 ^ N.of_nat (length l2) + digits_value l2.
Proof.
  unfold digits_value. rewrite fold_left_app.
  apply fold_digits_acc.
Qed.

Lemma digits_value_zeros (j : nat) : digits_value (zeros j) = 0.
Proof.
  induction j as [|j IH]; [reflexivity|].
  change (zeros (S j)) with (["0"%char] ++ zeros j).
  rewrite digits_value_app, IH. reflexivity.
Qed.

Lemma zeros_length (j : nat) : length (zeros j) = j.
Proof. apply repeat_length. Qed.

Lemma rev_zeros (j : nat) : rev (zeros j) = zeros j.
Proof.
  unfold zeros. induction j as [|j IH]; [reflexivity|].
  simpl. rewrite IH. symmetry. apply repeat_cons.
Qed.

Lemma digits_zeros (j : nat) : digits (zeros j).
Proof.
  apply Forall_forall. intros c Hc. apply repeat_spec in Hc. subst c.
  reflexivity.
Qed.

Lemma digit_not_point (c : ascii) : is_digit c = true -> c <> "."%char.
Proof. intros H ->. discriminate H. Qed.

(** The decimal text of a natural number. *)
Lemma uint_text_digits (u : Decimal.uint) :
  digits (list_ascii_of_string (NilEmpty.string_of_uint u)).
Proof.
  induction u; simpl; constructor; try reflexivity; assumption.
Qed.

Lemma uint_text_value_acc (u : Decimal.uint) (acc : positive) :
  fold_left digit_step (list_ascii_of_string (NilEmpty.string_of_uint u)) (N.pos acc)
  = N.pos (Pos.of_uint_acc u acc).
Proof.
  revert acc.
  induction u; intros acc;
    cbn [NilEmpty.string_of_uint list_ascii_of_string fold_left Pos.of_uint_acc];
    try reflexivity;
    rewrite <- IHu; f_equal; unfold digit_step;
    match goal with
    | |- context [digit_value ?c] =>
        let v := eval vm_compute in (digit_value c) in
        change (digit_value c) with v
    end; lia.
Qed.

Lemma uint_text_value (u : Decimal.uint) :
  digits_value (list_ascii_of_string (NilEmpty.string_of_uint u)) = N.of_uint u.
Proof.
  unfold digits_value, N.of_uint.
  induction u; simpl; try assumption; try reflexivity;
    apply (uint_text_value_acc u).
Qed.

Lemma nilzero_text (u : Decimal.uint) :
  let ds := list_ascii_of_string (NilZero.string_of_uint u) in
  digits ds /\ digits_value ds = N.of_uint u /\ ds <> [].
Proof.
  destruct u; unfold NilZero.string_of_uint;
    (split; [|split]);
    try apply uint_text_digits; try apply uint_text_value;
    try (simpl; discriminate).
  - repeat constructor.
  - reflexivity.
Qed.

Lemma toString_digits (x : Z) :
  (0 <= x)%Z ->
  let ds := list_ascii_of_string (Js.toString x) in
  digits ds /\ digits_value ds = Z.to_N x /\ ds <> [].
Proof.
  intros Hx. unfold Js.toString.
  destruct (Z.ltb_spec x 0) as [Hn|_]; [lia|].
  destruct (nilzero_text (N.to_uint (Z.to_N x))) as (D & V & E).
  rewrite DecimalN.Unsigned.of_to in V. auto.
Qed.

Lemma digits_value_lead_zeros (j : nat) (l : list ascii) :
  digits_value (zeros j ++ l) = digits_value l.
Proof. rewrite digits_value_app, digits_value_zeros. lia. Qed.

Lemma digits_value_trail_zeros (j : nat) (l : list ascii) :
  digits_value (l ++ zeros j) = digits_value l * 10 ^ N.of_nat j.
Proof. rewrite digits_value_app, digits_value_zeros, zeros_length. lia. Qed.

(** The two trimming loops, on a text with a point after a run [w] of
    digits: leading zeros of [w] go, but not its last character. *)
Lemma trim_leading_point (w t : list ascii) :
  digits w ->
  exists j w',
    w = zeros j ++ w'
    /\ trim_leading (w ++ "."%char :: t) = w' ++ "."%char :: t
    /\ (w <> [] -> w' <> [])
    /\ digits w'.
Proof.
  induction w as [|c w IH]; intros Hd.
  - exists 0%nat, []. repeat split; auto.
  - inversion Hd as [|c0 w0 Hc Hw]; subst.
    cbn [app trim_leading].
    destruct (Ascii.eqb c "0") eqn:Ec.
    + apply Ascii.eqb_eq in Ec. subst c.
      destruct w as [|c1 w1].
      * exists 0%nat, ["0"%char]. repeat split; auto; discriminate.
      * cbn [app]. inversion Hw as [|c2 w2 Hc1 Hw1]; subst.
        destruct (Ascii.eqb_spec c1 ".") as [E|_];
          [exfalso; exact (digit_not_point c1 Hc1 E)|].
        destruct (IH Hw) as (j & w' & E1 & E2 & E3 & E4).
        exists (S j), w'. repeat split.
        -- cbn [zeros repeat app]. f_equal. exact E1.
        -- exact E2.
        -- intros _. apply E3. discriminate.
        -- exact E4.
    + exists 0%nat, (c :: w). repeat split; auto; discriminate.
Qed.

Lemma trim_trailing_point (w f : list ascii) :
  digits f ->
  exists j f',
    f = f' ++ zeros j
    /\ trim_trailing (w ++ "."%char :: f) = w ++ "."%char :: f'
    /\ (f <> [] -> f' <> [])
    /\ digits f'.
Proof.
  intros Hd. unfold trim_trailing.
  assert (Hr : digits (rev f)) by (apply Forall_rev; exact Hd).
  destruct (trim_leading_point (rev f) (rev w) Hr)
    as (j & r & E1 & E2 & E3 & E4).
  exists j, (rev r). repeat split.
  - rewrite <- (rev_involutive f), E1, rev_app_distr, rev_zeros. reflexivity.
  - rewrite rev_app_distr. cbn [rev]. rewrite <- app_assoc. cbn [app].
    rewrite E2, rev_app_distr. cbn [rev].
    rewrite rev_involutive, <- app_assoc. reflexivity.
  - intros Hf Hn. apply E3.
    + intros Hrf. apply Hf. rewrite <- (rev_involutive f), Hrf. reflexivity.
    + rewrite <- (rev_involutive r), Hn. reflexivity.
  - apply Forall_rev. exact E4.
Qed.

Lemma split_at_point_unique (w1 w2 f1 f2 : list ascii) :
  digits w1 -> digits w2 ->
  w1 ++ "."%char :: f1 = w2 ++ "."%char :: f2 ->
  w1 = w2 /\ f1 = f2.
Proof.
  revert w2. induction w1 as [|c w1 IH]; intros [|c' w2] H1 H2 E;
    cbn [app] in E.
  - injection E as ->. auto.
  - injection E as <- _. inversion H2 as [|? ? Hc _]. discriminate Hc.
  - injection E as -> _. inversion H1 as [|? ? Hc _]. discriminate Hc.
  - injection E as -> E. inversion H1; inversion H2; subst.
    destruct (IH w2) as [-> ->]; auto.
Qed.

(** The text of a non-negative value with at least one decimal: a run
    of digits, the point, a run of at most [d] digits, where the digits
    read as a number give the value once the trimmed zeros are put back. *)
Lemma fixed_toString_shape (x : Z) (d : nat) :
  (0 <= x)%Z -> (0 < d)%nat ->
  exists W F j,
    fixed_toString x d = string_of_list_ascii (W ++ "."%char :: F)
    /\ digits W /\ digits F
    /\ (length F + j = d)%nat
    /\ Z.to_N x = digits_value (W ++ F) * 10 ^ N.of_nat j.
Proof.
  intros Hx Hd. unfold fixed_toString.
  destruct (Z.ltb_spec x 0) as [Hn|_]; [lia|].
  rewrite Z.abs_eq by assumption.
  destruct (toString_digits x Hx) as (Dds & Vds & _).
  set (ds := list_ascii_of_string (Js.toString x)) in *.
  destruct d as [|d0]; [lia|]. set (d := S d0) in *.
  set (padded := zeros (S d - length ds) ++ ds).
  assert (Lp : (d < length padded)%nat).
  { unfold padded. rewrite length_app, zeros_length. lia. }
  assert (Dp : digits padded).
  { unfold padded. apply Forall_app. split; [apply digits_zeros|exact Dds]. }
  set (index := (length padded - d)%nat).
  pose proof (firstn_skipn index padded) as Split.
  set (whole := firstn index padded) in *.
  set (frac := skipn index padded) in *.
  assert (Lf : length frac = d).
  { unfold frac. rewrite length_skipn. unfold index. lia. }
  assert (Dwf : digits whole /\ digits frac).
  { apply Forall_app. rewrite Split. exact Dp. }
  destruct Dwf as [Dw Df].
  destruct (trim_leading_point whole frac Dw) as (j1 & W & E1 & T1 & _ & DW).
  destruct (trim_trailing_point W frac Df) as (j2 & F & E2 & T2 & _ & DF).
  exists W, F, j2. rewrite T1, T2. cbn [app].
  repeat split; try assumption.
  - rewrite <- Lf, E2, length_app, zeros_length. reflexivity.
  - rewrite <- Vds.
    rewrite <- (digits_value_lead_zeros (S d - length ds) ds).
    fold padded. rewrite <- Split, E1, E2.
    rewrite <- app_assoc, digits_value_lead_zeros.
    rewrite app_assoc. apply digits_value_trail_zeros.
Qed.

Lemma fixed_toString_whole (x : Z) :
  (0 <= x)%Z ->
  exists ds, fixed_toString x 0 = string_of_list_ascii ds /\ digits ds.
Proof.
  intros Hx. unfold fixed_toString.
  destruct (Z.ltb_spec x 0) as [Hn|_]; [lia|].
  rewrite Z.abs_eq by assumption.
  destruct (toString_digits x Hx) as (Dds & _ & _).
  eexists. split; [reflexivity|]. exact Dds.
Qed.

Lemma string_of_list_ascii_inj (a b : list ascii) :
  string_of_list_ascii a = string_of_list_ascii b -> a = b.
Proof.
  intros E. apply (f_equal list_ascii_of_string) in E.
  rewrite !list_ascii_of_string_of_list_ascii in E. exact E.
Qed.

(** A positive value printed with two different numbers of decimals
    gives two different texts. *)
Lemma fixed_toString_decimals_inj (x : Z) (d d' : nat) :
  (0 < x)%Z -> fixed_toString x d = fixed_toString x d' -> d = d'.
Proof.
  intros Hx E.
  assert (Hx0 : (0 <= x)%Z) by lia.
  destruct d as [|d0], d' as [|d0']; [reflexivity| | |].
  - exfalso.
    destruct (fixed_toString_whole x Hx0) as (ds & E0 & D0).
    destruct (fixed_toString_shape x (S d0') Hx0) as (W & F & j & E1 & _);
      [lia|].
    rewrite E0, E1 in E. apply string_of_list_ascii_inj in E. subst ds.
    apply Forall_app in D0. destruct D0 as [_ D0].
    inversion D0 as [|? ? Hc _]. discriminate Hc.
  - exfalso.
    destruct (fixed_toString_whole x Hx0) as (ds & E0 & D0).
    destruct (fixed_toString_shape x (S d0) Hx0) as (W & F & j & E1 & _);
      [lia|].
    rewrite E0, E1 in E. apply string_of_list_ascii_inj in E. subst ds.
    apply Forall_app in D0. destruct D0 as [_ D0].
    inversion D0 as [|? ? Hc _]. discriminate Hc.
  - destruct (fixed_toString_shape x (S d0) Hx0)
      as (W & F & j & E1 & DW & _ & L1 & V1); [lia|].
    destruct (fixed_toString_shape x (S d0') Hx0)
      as (W' & F' & j' & E2 & DW' & _ & L2 & V2); [lia|].
    rewrite E1, E2 in E. apply string_of_list_ascii_inj in E.
    destruct (split_at_point_unique W W' F F' DW DW' E) as [<- <-].
    assert (P : 10 ^ N.of_nat j = 10 ^ N.of_nat j').
    { assert (Hpos : 0 < Z.to_N x) by lia.
      rewrite V1 in V2, Hpos.
      apply N.mul_cancel_l in V2; [exact V2|].
      intros Hz. rewrite Hz in Hpos. simpl in Hpos. lia. }
    apply N.pow_inj_r in P; lia.
Qed.

End FixedText.

Lemma formatUnits_decimals_differ (x d : Z) :
  0 < x -> 0 <= d -> d <> 6 ->
  Ethers.formatUnits x 6 <> Ethers.formatUnits x d.
Proof.
  intros Hx Hd Hne. rewrite formatUnits_6. unfold Ethers.formatUnits.
  destruct (Z.ltb_spec Ethers.max_decimals d) as [_|_]; [discriminate|].
  intros E. injection E as E.
  apply (fixed_toString_decimals_inj x 6 (Z.to_nat d) Hx) in E. lia.
Qed.

(** C10: the splitter balance of the token is printed with the decimals
    the token contract reported, the usdc balance with the constant 6,
    whatever decimals the usdc contract has, which getTreasury never
    uses for it; when these differ from 6, the usdc field is not the
    text of its balance at the asset's own decimals, so the two fields
    follow different scaling rules. *)
Theorem getTreasury_balance_scaling (chain : Ledger.t) (this : MoltDAOSkill)
    (k : Network.contracts_t) (u sym : string) (d sb ub d2 : Z)
    (shown : string) :
  contracts this = Some k ->
  network this = "testnet" ->
  Network.usdc k = Some u -> u <> "" ->
  Ledger.symbol chain (Network.token k) = Ok sym ->
  Ledger.decimals chain (Network.token k) = Ok d ->
  Ledger.balanceOf chain (Network.token k) (Network.splitter k) = Ok sb ->
  Ethers.formatUnits sb d = Ok shown ->
  Ledger.balanceOf chain u (Network.governance k) = Ok ub ->
  Ledger.decimals chain u = Ok d2 -> 0 <= d2 -> d2 <> 6 ->
  getTreasury chain this
  = (treasury_reads k ++ [EthCall u (m_balanceOf (Network.governance k))],
     Ok {| Treasury.token :=
             {| Treasury.address := Network.token k;
                Treasury.symbol := sym;
                Treasury.splitterBalance := shown |};
           Treasury.usdc :=
             Some (Treasury.Balance u (Ethers.fixed_toString ub 6)) |})
  /\ Ethers.formatUnits ub 6 = Ok (Ethers.fixed_toString ub 6)
  /\ (forall x, 0 < x -> Ethers.formatUnits x 6 <> Ethers.formatUnits x d2).
Proof.
  intros Hk Hn Hu Hne Hs Hd Hb Hf Hx Hd2 H0 H6.
  split; [|split; [reflexivity|]].
  - unfold getTreasury, this_contracts, Promise_all3, await, events, result,
      treasury_reads.
    rewrite Hk. cbn [bind ret fst snd app].
    rewrite Hs, Hd, Hb. cbn [bind ret lift app]. rewrite Hf.
    cbn [bind ret lift app]. rewrite Hn, Hu.
    assert (T : Js.truthy (Some u) = true).
    { unfold Js.truthy.
      destruct (String.eqb_spec u ""); [contradiction|reflexivity]. }
    rewrite T. cbn [String.eqb Ascii.eqb Bool.eqb andb new_Contract bind ret
                      try_catch app Treasury.token].
    rewrite Hx. reflexivity.
  - intros x Hpos. apply formatUnits_decimals_differ; assumption.
Qed.

Lemma getTreasury_balance_scaling_witness :
  result (getTreasury (Sample.wide_chain)
            Sample.reader)
  = Ok {| Treasury.token :=
            {| Treasury.address := Network.token Sample.testnet;
               Treasury.symbol := "USDC";
               Treasury.splitterBalance := "0.000000000001" |};
          Treasury.usdc :=
            Some (Treasury.Balance (Network.token Sample.testnet) "1.0") |}
  /\ Ethers.formatUnits 1000000 6 <> Ethers.formatUnits 1000000 18.
Proof.
  destruct (getTreasury_balance_scaling
              (Sample.wide_chain)
              Sample.reader
              Sample.testnet (Network.token Sample.testnet) "USDC"
              18 1000000 1000000 18 "0.000000000001")
    as (G & _ & D);
    [reflexivity | reflexivity | reflexivity | discriminate | reflexivity
    | reflexivity | reflexivity | reflexivity | reflexivity | reflexivity
    | lia | lia |].
  split; [rewrite G; reflexivity | apply D; lia].
Defined.

(** * Further properties of the client *)

(** ** The read functions *)

Lemma fetch_loop_reads (chain : Ledger.t) (gov : address) (ids : list Z) :
  forall proposals,
    filter is_read (events (fetch_loop chain gov ids proposals))
    = flat_map
        (fun i => firstn (fetch_calls chain gov i) (fetch_reads gov i)) ids
    /\ Forall (fun e => is_read e = true \/ is_log e = true)
         (events (fetch_loop chain gov ids proposals)).
Proof.
  induction ids as [|i rest IH]; intros proposals.
  - split; [reflexivity | constructor].
  - cbn [fetch_loop flat_map].
    unfold fetchProposal, fetch_calls, fetch_reads, await.
    destruct (Ledger.getProposal chain gov i),
             (Ledger.getProposalResult chain gov i),
             (Ledger.isProposalActive chain gov i);
      cbn [bind ret try_catch lift emit app Ethers.formatUnits
           Ethers.max_decimals Z.ltb Z.compare Pos.compare Pos.compare_cont];
      match goal with
      | |- context [fetch_loop chain gov rest ?acc] =>
          destruct (IH acc) as (R & F);
          destruct (fetch_loop chain gov rest acc) as [t o];
          unfold events in *; cbn [fst snd] in *
      end;
      cbn [filter is_read app firstn];
      rewrite ?R; (split; [reflexivity|]);
      repeat (constructor; [cbn; auto|]); exact F.
Qed.

(** X1: the read functions only read.  Every event of getVotingPower,
    hasVoted and getTreasury is a read call, and every event of
    getProposals is a read call or a logged error: none of them submits
    a transaction, waits for one, or opens a provider. *)
Theorem read_functions_only_read (chain : Ledger.t) (this : MoltDAOSkill) :
  Forall (fun e => is_read e = true \/ is_log e = true)
    (events (getProposals chain this))
  /\ (forall who,
        Forall (fun e => is_read e = true)
          (events (getVotingPower chain this who)))
  /\ (forall proposalId who,
        Forall (fun e => is_read e = true)
          (events (hasVoted chain this proposalId who)))
  /\ Forall (fun e => is_read e = true) (events (getTreasury chain this)).
Proof.
  split; [|split; [|split]].
  - unfold getProposals, this_contracts, await.
    destruct (contracts this) as [k|]; [|constructor].
    cbn [bind ret].
    destruct (Ledger.proposalCount chain (Network.governance k)) as [c|e];
      [|repeat constructor].
    destruct (fetch_loop_reads chain (Network.governance k)
                (ids_upto (Js.Number c)) []) as (_ & F).
    destruct (fetch_loop chain (Network.governance k)
                (ids_upto (Js.Number c)) []) as [t o].
    unfold events in *. cbn [fst snd app] in *.
    constructor; [left; reflexivity | exact F].
  - intros who. unfold getVotingPower, this_contracts, await.
    destruct (contracts this) as [k|]; [|constructor].
    cbn [bind ret].
    destruct (Ledger.getVotingPower chain (Network.governance k) who);
      repeat constructor.
  - intros proposalId who. unfold hasVoted, this_contracts, await.
    destruct (contracts this) as [k|]; [|constructor].
    cbn [bind ret].
    destruct (Ledger.hasUserVoted chain (Network.governance k) proposalId who);
      repeat constructor.
  - unfold getTreasury, this_contracts, Promise_all3, await, events, result.
    destruct (contracts this) as [k|]; [|constructor].
    cbn [bind ret fst snd app].
    destruct (Ledger.symbol chain (Network.token k)),
             (Ledger.decimals chain (Network.token k)) as [d|],
             (Ledger.balanceOf chain (Network.token k) (Network.splitter k))
               as [sb|];
      cbn [bind ret fst snd app]; try (repeat constructor).
    destruct (Ethers.formatUnits sb d); cbn [lift bind ret fst snd app];
      [|repeat constructor].
    destruct (String.eqb (network this) "testnet"
              && Js.truthy (Network.usdc k));
      [|repeat constructor].
    destruct (Network.usdc k) as [u|];
      cbn [new_Contract bind ret throw try_catch];
      [|repeat constructor].
    destruct (Ledger.balanceOf chain u (Network.governance k));
      cbn; repeat constructor.
Qed.

(** X2: getProposals throws in two cases only, and never because the
    fetch of some id failed: when [this.contracts] is undefined (a
    TypeError before any call) and when the read of the count fails
    (that failure, after that one call). *)
Theorem getProposals_throws_iff (chain : Ledger.t) (this : MoltDAOSkill)
    (e : exn) :
  result (getProposals chain this) = Throw e
  <-> (contracts this = None
       /\ e = JsTypeError (no_contracts_message "governance"))
      \/ (exists k,
            contracts this = Some k
            /\ Ledger.proposalCount chain (Network.governance k) = Throw e).
Proof.
  unfold getProposals, this_contracts, await, result.
  destruct (contracts this) as [k|]; cbn [bind ret throw snd].
  - destruct (Ledger.proposalCount chain (Network.governance k))
      as [c|e'] eqn:Ec.
    + destruct (fetch_loop_spec chain (Network.governance k)
                  (ids_upto (Js.Number c)) []) as (R & _).
      destruct (fetch_loop chain (Network.governance k)
                  (ids_upto (Js.Number c)) []) as [t o].
      unfold result in R. cbn [fst snd] in *. subst o. split.
      * discriminate.
      * intros [[H _]|(k' & Hk & Hc)]; [discriminate|].
        injection Hk as <-. rewrite Ec in Hc. discriminate.
    + cbn [snd]. split.
      * intros H. injection H as <-. right. exists k. rewrite Ec. auto.
      * intros [[H _]|(k' & Hk & Hc)]; [discriminate|].
        injection Hk as <-. rewrite Ec in Hc. injection Hc as ->.
        reflexivity.
  - split.
    + intros H. injection H as <-. left. auto.
    + intros [[_ ->]|(k' & Hk & _)]; [reflexivity | discriminate].
Qed.

Lemma fetch_calls_bounds (chain : Ledger.t) (gov : address) (ids : list Z) :
  (length ids
   <= length (flat_map
                (fun i => firstn (fetch_calls chain gov i) (fetch_reads gov i))
                ids)
   <= 3 * length ids)%nat
  /\ (filter (fetch_fails chain gov) ids = [] ->
      length (flat_map
                (fun i => firstn (fetch_calls chain gov i) (fetch_reads gov i))
                ids)
      = (3 * length ids)%nat).
Proof.
  induction ids as [|i rest [IH1 IH2]]; [simpl; split; [lia|reflexivity]|].
  cbn [flat_map filter length]. rewrite length_app.
  set (tl := flat_map
               (fun i => firstn (fetch_calls chain gov i) (fetch_reads gov i))
               rest) in *.
  set (failing := filter (fetch_fails chain gov) rest) in *.
  unfold fetch_calls, fetch_fails, fetch_reads.
  destruct (Ledger.getProposal chain gov i),
           (Ledger.getProposalResult chain gov i),
           (Ledger.isProposalActive chain gov i);
    cbn [firstn length is_throw orb]; (split; [lia|]);
    intros H; try discriminate H; rewrite (IH2 H); lia.
Qed.

(** X3: the read calls of getProposals for a count below 2^32, in
    order: the count, then for each id from 1 to the count its three
    reads, cut short after the first one that fails.  So a listing of [count] proposals costs
    between count + 1 and 3 * count + 1 calls, and exactly 3 * count + 1
    when no fetch fails. *)
Theorem getProposals_reads (chain : Ledger.t) (this : MoltDAOSkill)
    (k : Network.contracts_t) (count : Z) :
  contracts this = Some k ->
  Ledger.proposalCount chain (Network.governance k) = Ok count ->
  0 <= count < 2 ^ 32 ->
  let gov := Network.governance k in
  reads (getProposals chain this)
  = EthCall gov m_proposalCount
      :: flat_map
           (fun i => firstn (fetch_calls chain gov i) (fetch_reads gov i))
           (ids_upto count)
  /\ count + 1 <= Z.of_nat (length (reads (getProposals chain this)))
     <= 3 * count + 1
  /\ (filter (fetch_fails chain gov) (ids_upto count) = [] ->
      Z.of_nat (length (reads (getProposals chain this))) = 3 * count + 1).
Proof.
  intros Hk Hc Hn gov.
  assert (E : reads (getProposals chain this)
              = EthCall gov m_proposalCount
                  :: flat_map
                       (fun i => firstn (fetch_calls chain gov i)
                                   (fetch_reads gov i))
                       (ids_upto count)).
  { subst gov. unfold reads, getProposals, this_contracts, await.
    rewrite Hk. cbn [bind ret]. rewrite Hc, (Number_exact count) by lia.
    destruct (fetch_loop_reads chain (Network.governance k)
                (ids_upto count) []) as (R & _).
    destruct (fetch_loop chain (Network.governance k) (ids_upto count) [])
      as [t o].
    unfold events in *. cbn [fst snd app filter is_read] in *.
    rewrite R. reflexivity. }
  destruct (fetch_calls_bounds chain gov (ids_upto count)) as (B & X).
  rewrite ids_upto_length in B, X.
  rewrite E. cbn [length]. split; [reflexivity|]. split; [lia|].
  intros H. rewrite (X H). lia.
Qed.

Lemma getProposals_reads_witness :
  reads (getProposals Sample.flaky_chain Sample.reader)
  = EthCall Sample.gov m_proposalCount
      :: fetch_reads Sample.gov 1 ++ fetch_reads Sample.gov 2
      ++ [EthCall Sample.gov (m_getProposal 3)]
      ++ fetch_reads Sample.gov 4 ++ fetch_reads Sample.gov 5.
Proof.
  destruct (getProposals_reads Sample.flaky_chain Sample.reader
              Sample.testnet 5) as (E & _);
    [reflexivity | reflexivity | lia |].
  rewrite E. reflexivity.
Defined.

Lemma collect_ids (chain : Ledger.t) (gov : address) (ids : list Z) :
  (forall i p,
      In i ids -> Ledger.getProposal chain gov i = Ok p ->
      Js.Number (AbiProposal.id p) = i) ->
  map Proposal.id (collect chain gov ids)
  = filter (fun i => negb (fetch_fails chain gov i)) ids.
Proof.
  induction ids as [|i rest IH]; intros H; [reflexivity|].
  unfold collect in *. cbn [flat_map filter]. rewrite map_app, IH.
  - unfold fetched, fetch_fails.
    pose proof (H i) as Hi.
    destruct (Ledger.getProposal chain gov i) as [p|],
             (Ledger.getProposalResult chain gov i),
             (Ledger.isProposalActive chain gov i);
      cbn [is_throw orb negb map app]; try reflexivity.
    cbn [assemble Proposal.id].
    rewrite (Hi p); [reflexivity | left; reflexivity | reflexivity].
  - intros j p Hj. apply H. right. exact Hj.
Qed.

(** X4: when the contract answers the read of id [i] with a record
    whose id is [i], and the count is below 2^32, the ids of the
    returned proposals are exactly the ids whose fetch did not fail, in
    ascending order: the id field is the contract's id converted to a
    number, which is exact in that range. *)
Theorem getProposals_ids (chain : Ledger.t) (this : MoltDAOSkill)
    (k : Network.contracts_t) (count : Z) :
  contracts this = Some k ->
  Ledger.proposalCount chain (Network.governance k) = Ok count ->
  0 <= count < 2 ^ 32 ->
  let gov := Network.governance k in
  (forall i p,
      1 <= i <= count -> Ledger.getProposal chain gov i = Ok p ->
      AbiProposal.id p = i) ->
  exists ps,
    result (getProposals chain this) = Ok ps
    /\ map Proposal.id ps
       = filter (fun i => negb (fetch_fails chain gov i)) (ids_upto count).
Proof.
  intros Hk Hc Hn gov Hecho.
  destruct (getProposals_spec chain this k count Hk Hc) as (R & _ & _).
  rewrite (Number_exact count) in R by lia.
  exists (collect chain gov (ids_upto count)). split; [exact R|].
  apply collect_ids. intros i p Hi Hp. apply ids_upto_In in Hi.
  rewrite (Hecho i p Hi Hp). apply Number_exact. lia.
Qed.

Lemma getProposals_ids_witness :
  exists ps,
    result (getProposals Sample.flaky_chain Sample.reader) = Ok ps
    /\ map Proposal.id ps = [1; 2; 4; 5].
Proof.
  destruct (getProposals_ids Sample.flaky_chain Sample.reader
              Sample.testnet 5) as (ps & R & I);
    [reflexivity | reflexivity | lia | |].
  - intros i p _ Hp. cbn in Hp.
    destruct (i =? 3); [discriminate|]. injection Hp as <-. reflexivity.
  - exists ps. split; [exact R | exact I].
Defined.

(** ** The write functions *)

(** X5: each write function submits at most one transaction, and only
    its own: vote the vote asked for on the governance contract,
    donateUSDC a transfer of the converted amount to the governance
    address on the usdc contract, createProposal the creation asked
    for; always from the signer's address. *)
Theorem write_functions_single_transaction (chain : Ledger.t)
    (this : MoltDAOSkill) :
  (forall proposalId support,
      writes (vote chain this proposalId support) = []
      \/ exists w k,
           wallet this = Some w /\ contracts this = Some k
           /\ writes (vote chain this proposalId support)
              = [SendTransaction (wallet_address w) (Network.governance k)
                   (m_vote proposalId support)])
  /\ (forall amount,
        writes (donateUSDC chain this amount) = []
        \/ exists w k u v,
             wallet this = Some w /\ contracts this = Some k
             /\ Network.usdc k = Some u
             /\ Ethers.parseUnits amount 6 = Ok v
             /\ writes (donateUSDC chain this amount)
                = [SendTransaction (wallet_address w) u
                     (m_transfer (Network.governance k) v)])
  /\ (forall title description,
        writes (createProposal chain this title description) = []
        \/ exists w k,
             wallet this = Some w /\ contracts this = Some k
             /\ writes (createProposal chain this title description)
                = [SendTransaction (wallet_address w) (Network.governance k)
                     (m_createProposal title description)]).
Proof.
  split; [|split].
  - intros proposalId support.
    unfold vote, writes, events, this_contracts, await.
    destruct (wallet this) as [w|]; [|left; reflexivity].
    destruct (contracts this) as [k|]; [|left; reflexivity].
    cbn [bind ret].
    destruct (Ledger.isProposalActive chain (Network.governance k) proposalId)
      as [[|]|]; try (left; reflexivity).
    cbn [negb].
    destruct (Ledger.hasUserVoted chain (Network.governance k) proposalId
                (wallet_address w)) as [[|]|]; try (left; reflexivity).
    destruct (Ledger.getVotingPower chain (Network.governance k)
                (wallet_address w)) as [power|]; try (left; reflexivity).
    cbn [bind]. destruct (power =? 0); [left; reflexivity|].
    right. exists w, k. split; [reflexivity|]. split; [reflexivity|].
    destruct (Ledger.vote chain (Network.governance k) (wallet_address w)
                proposalId support) as [tx|]; cbn; [|reflexivity].
    destruct (Tx.wait tx); reflexivity.
  - intros amount.
    unfold donateUSDC, writes, events, this_contracts, new_Contract, await.
    destruct (String.eqb (network this) "testnet"); [|left; reflexivity].
    cbn [negb].
    destruct (wallet this) as [w|]; [|left; reflexivity].
    destruct (contracts this) as [k|]; [|left; reflexivity].
    cbn [bind ret].
    destruct (Network.usdc k) as [u|] eqn:Eu; [|left; reflexivity].
    cbn [bind ret].
    destruct (Ethers.parseUnits amount 6) as [v|]; [|left; reflexivity].
    right. exists w, k, u, v.
    do 2 (split; [reflexivity|]). split; [exact Eu|]. split; [reflexivity|].
    cbn [lift bind ret app].
    destruct (Ledger.transfer chain u (wallet_address w)
                (Network.governance k) v) as [tx|]; cbn; [|reflexivity].
    destruct (Tx.wait tx); reflexivity.
  - intros title description.
    unfold createProposal, writes, events, this_contracts, await.
    destruct (wallet this) as [w|]; [|left; reflexivity].
    destruct (contracts this) as [k|]; [|left; reflexivity].
    right. exists w, k. split; [reflexivity|]. split; [reflexivity|].
    cbn [bind ret].
    destruct (Ledger.createProposal chain (Network.governance k)
                (wallet_address w) title description) as [tx|];
      cbn; [|reflexivity].
    destruct (Tx.wait tx); cbn; [|reflexivity].
    destruct (Ledger.proposalCount chain (Network.governance k)); reflexivity.
Qed.

(** X6: vote reports success only for a transaction that was sent and
    confirmed after all four guards were passed.  The result then echoes
    the proposal id, says FOR or AGAINST for the support flag, gives the
    voting power read by the guard at 18 decimals, the hash and the
    explorer link of that transaction; and for an id in the uint256
    range these conditions are also enough for success. *)
Theorem vote_success (chain : Ledger.t) (this : MoltDAOSkill)
    (proposalId : Z) (support : bool) :
  (forall r,
      result (vote chain this proposalId support) = Ok r ->
      exists w k power tx,
        wallet this = Some w /\ contracts this = Some k
        /\ Ledger.isProposalActive chain (Network.governance k) proposalId
           = Ok true
        /\ Ledger.hasUserVoted chain (Network.governance k) proposalId
             (wallet_address w) = Ok false
        /\ Ledger.getVotingPower chain (Network.governance k)
             (wallet_address w) = Ok power
        /\ power <> 0
        /\ Ledger.vote chain (Network.governance k) (wallet_address w)
             proposalId support = Ok tx
        /\ Tx.wait tx = Ok tt
        /\ events (vote chain this proposalId support)
           = vote_reads (Network.governance k) (wallet_address w) proposalId
               ++ [SendTransaction (wallet_address w) (Network.governance k)
                     (m_vote proposalId support);
                   TxWait (Tx.hash tx)]
        /\ r = {| VoteResult.success := true;
                  VoteResult.proposalId := proposalId;
                  VoteResult.support := if support then "FOR" else "AGAINST";
                  VoteResult.votingPower := Ethers.fixed_toString power 18;
                  VoteResult.txHash := Tx.hash tx;
                  VoteResult.explorer := explorer_link this (Tx.hash tx) |})
  /\ (forall w k power tx,
        uint256 proposalId ->
        wallet this = Some w -> contracts this = Some k ->
        Ledger.isProposalActive chain (Network.governance k) proposalId
        = Ok true ->
        Ledger.hasUserVoted chain (Network.governance k) proposalId
          (wallet_address w) = Ok false ->
        Ledger.getVotingPower chain (Network.governance k)
          (wallet_address w) = Ok power ->
        power <> 0 ->
        Ledger.vote chain (Network.governance k) (wallet_address w)
          proposalId support = Ok tx ->
        Tx.wait tx = Ok tt ->
        result (vote chain this proposalId support)
        = Ok {| VoteResult.success := true;
                VoteResult.proposalId := proposalId;
                VoteResult.support := if support then "FOR" else "AGAINST";
                VoteResult.votingPower := Ethers.fixed_toString power 18;
                VoteResult.txHash := Tx.hash tx;
                VoteResult.explorer := explorer_link this (Tx.hash tx) |}).
Proof.
  split.
  - intros r.
    unfold vote, result, events, this_contracts, await, vote_reads.
    destruct (wallet this) as [w|]; [|discriminate].
    destruct (contracts this) as [k|]; [|discriminate].
    cbn [bind ret].
    destruct (Ledger.isProposalActive chain (Network.governance k) proposalId)
      as [[|]|] eqn:Ea; try discriminate.
    cbn [negb].
    destruct (Ledger.hasUserVoted chain (Network.governance k) proposalId
                (wallet_address w)) as [[|]|] eqn:Ev; try discriminate.
    destruct (Ledger.getVotingPower chain (Network.governance k)
                (wallet_address w)) as [power|] eqn:Ep; try discriminate.
    cbn [bind]. destruct (Z.eqb_spec power 0) as [|Hp]; [discriminate|].
    destruct (Ledger.vote chain (Network.governance k) (wallet_address w)
                proposalId support) as [tx|] eqn:Etx; [|discriminate].
    cbn [bind]. destruct (Tx.wait tx) as [[]|] eqn:Ew; [|discriminate].
    cbn. intros H. injection H as <-.
    exists w, k, power, tx. repeat split; assumption.
  - intros w k power tx _ Hw Hk Ha Hv Hp Hne Htx Hwait.
    unfold vote, result, this_contracts, await.
    rewrite Hw, Hk. cbn [bind ret].
    answer Ha. answer Hv. answer Hp.
    destruct (Z.eqb_spec power 0) as [|_]; [contradiction|].
    answer Htx. answer Hwait. reflexivity.
Qed.

Lemma vote_success_witness :
  result (vote Sample.open_chain Sample.voter 1 false)
  = Ok {| VoteResult.success := true;
          VoteResult.proposalId := 1;
          VoteResult.support := "AGAINST";
          VoteResult.votingPower := "0.000000000000000001";
          VoteResult.txHash := "0xabc";
          VoteResult.explorer := "https://sepolia.basescan.org/tx/0xabc" |}
  /\ exists tx,
       events (vote Sample.open_chain Sample.voter 1 false)
       = vote_reads Sample.gov "0xA11CE" 1
           ++ [SendTransaction "0xA11CE" Sample.gov (m_vote 1 false);
               TxWait (Tx.hash tx)].
Proof.
  destruct (vote_success Sample.open_chain Sample.voter 1 false) as (N & S).
  assert (R : result (vote Sample.open_chain Sample.voter 1 false)
              = Ok {| VoteResult.success := true;
                      VoteResult.proposalId := 1;
                      VoteResult.support := "AGAINST";
                      VoteResult.votingPower := "0.000000000000000001";
                      VoteResult.txHash := "0xabc";
                      VoteResult.explorer :=
                        "https://sepolia.basescan.org/tx/0xabc" |}).
  { apply (S Sample.signer Sample.testnet 1 (Sample.mined "0xabc"));
      try reflexivity; [unfold uint256; lia | discriminate]. }
  split; [exact R|].
  destruct (N _ R)
    as (w & k & power & tx & Hw & Hk & _ & _ & _ & _ & _ & _ & E & _).
  injection Hw as <-. injection Hk as <-. exists tx. exact E.
Defined.

(** X7: donateUSDC refuses before anything leaves the process.  Off
    testnet it throws the testnet-only error whether or not a signer is
    configured, since that check comes first; and on testnet with a
    signer, an amount text that the unit conversion rejects makes it
    throw the conversion's error.  In both cases no event occurs. *)
Theorem donateUSDC_refusals (chain : Ledger.t) (this : MoltDAOSkill)
    (amount : string) :
  (network this <> "testnet" ->
   donateUSDC chain this amount = ([], Throw (JsError testnet_only_message)))
  /\ (forall w k u e,
        network this = "testnet" ->
        wallet this = Some w -> contracts this = Some k ->
        Network.usdc k = Some u ->
        Ethers.parseUnits amount 6 = Throw e ->
        donateUSDC chain this amount = ([], Throw e)).
Proof.
  split.
  - intros Hn. unfold donateUSDC.
    destruct (String.eqb_spec (network this) "testnet");
      [contradiction | reflexivity].
  - intros w k u e Hn Hw Hk Hu Hp.
    unfold donateUSDC, this_contracts, new_Contract.
    rewrite Hn, Hw, Hk. cbn [String.eqb Ascii.eqb Bool.eqb negb bind ret].
    rewrite Hu. cbn [bind ret app]. rewrite Hp. reflexivity.
Qed.

Lemma donateUSDC_refusals_witness :
  donateUSDC Sample.open_chain Cases.offnet_voter "10"
  = ([], Throw (JsError testnet_only_message))
  /\ donateUSDC Sample.open_chain Sample.voter "0.1234567"
     = ([], Throw (JsError "too many decimals for format"))
  /\ donateUSDC Sample.open_chain Sample.voter "ten"
     = ([], Throw (JsTypeError "invalid FixedNumber string value")).
Proof.
  split; [|split].
  - destruct (donateUSDC_refusals Sample.open_chain Cases.offnet_voter "10")
      as (O & _).
    apply O. discriminate.
  - destruct (donateUSDC_refusals Sample.open_chain Sample.voter "0.1234567")
      as (_ & P).
    apply (P Sample.signer Sample.testnet (Network.token Sample.testnet));
      reflexivity.
  - destruct (donateUSDC_refusals Sample.open_chain Sample.voter "ten")
      as (_ & P).
    apply (P Sample.signer Sample.testnet (Network.token Sample.testnet));
      reflexivity.
Defined.

(** X8: donateUSDC reports success only when the transfer was sent and
    confirmed; its events are then the transfer and the wait for it, and
    the result echoes the amount text followed by USDC, names the
    governance address as recipient and links the transaction.  For a
    converted amount in the uint256 range these conditions are also
    enough. *)
Theorem donateUSDC_success (chain : Ledger.t) (this : MoltDAOSkill)
    (amount : string) :
  (forall r,
      result (donateUSDC chain this amount) = Ok r ->
      exists w k u v tx,
        network this = "testnet"
        /\ wallet this = Some w /\ contracts this = Some k
        /\ Network.usdc k = Some u
        /\ Ethers.parseUnits amount 6 = Ok v
        /\ Ledger.transfer chain u (wallet_address w) (Network.governance k) v
           = Ok tx
        /\ Tx.wait tx = Ok tt
        /\ events (donateUSDC chain this amount)
           = [SendTransaction (wallet_address w) u
                (m_transfer (Network.governance k) v);
              TxWait (Tx.hash tx)]
        /\ r = {| DonateResult.success := true;
                  DonateResult.amount := amount ++ " USDC";
                  DonateResult.to := Network.governance k;
                  DonateResult.txHash := Tx.hash tx;
                  DonateResult.explorer := explorer_link this (Tx.hash tx) |})
  /\ (forall w k u v tx,
        network this = "testnet" ->
        wallet this = Some w -> contracts this = Some k ->
        Network.usdc k = Some u ->
        Ethers.parseUnits amount 6 = Ok v -> uint256 v ->
        Ledger.transfer chain u (wallet_address w) (Network.governance k) v
        = Ok tx ->
        Tx.wait tx = Ok tt ->
        result (donateUSDC chain this amount)
        = Ok {| DonateResult.success := true;
                DonateResult.amount := amount ++ " USDC";
                DonateResult.to := Network.governance k;
                DonateResult.txHash := Tx.hash tx;
                DonateResult.explorer := explorer_link this (Tx.hash tx) |}).
Proof.
  split.
  - intros r.
    unfold donateUSDC, result, events, this_contracts, new_Contract, await.
    destruct (String.eqb_spec (network this) "testnet") as [Hn|];
      [|discriminate].
    cbn [negb].
    destruct (wallet this) as [w|]; [|discriminate].
    destruct (contracts this) as [k|]; [|discriminate].
    cbn [bind ret].
    destruct (Network.usdc k) as [u|] eqn:Eu; [|discriminate].
    cbn [bind ret].
    destruct (Ethers.parseUnits amount 6) as [v|] eqn:Ep; [|discriminate].
    cbn [lift bind ret app].
    destruct (Ledger.transfer chain u (wallet_address w)
                (Network.governance k) v) as [tx|] eqn:Etx; [|discriminate].
    cbn [bind]. destruct (Tx.wait tx) as [[]|] eqn:Ew; [|discriminate].
    cbn. intros H. injection H as <-.
    exists w, k, u, v, tx. repeat split; assumption.
  - intros w k u v tx Hn Hw Hk Hu Hp _ Htx Hwait.
    unfold donateUSDC, result, this_contracts, new_Contract, await.
    rewrite Hn, Hw, Hk. cbn [String.eqb Ascii.eqb Bool.eqb negb bind ret].
    rewrite Hu. cbn [bind ret app]. rewrite Hp. cbn [lift bind ret app].
    answer Htx. answer Hwait. reflexivity.
Qed.

Lemma donateUSDC_success_witness :
  result (donateUSDC Sample.open_chain Sample.voter "2.5")
  = Ok {| DonateResult.success := true;
          DonateResult.amount := "2.5 USDC";
          DonateResult.to := Sample.gov;
          DonateResult.txHash := "0x123";
          DonateResult.explorer := "https://sepolia.basescan.org/tx/0x123" |}
  /\ writes (donateUSDC Sample.open_chain Sample.voter "2.5")
     = [SendTransaction "0xA11CE" (Network.token Sample.testnet)
          (m_transfer Sample.gov 2500000)].
Proof.
  destruct (donateUSDC_success Sample.open_chain Sample.voter "2.5")
    as (N & S).
  assert (R : result (donateUSDC Sample.open_chain Sample.voter "2.5")
              = Ok {| DonateResult.success := true;
                      DonateResult.amount := "2.5 USDC";
                      DonateResult.to := Sample.gov;
                      DonateResult.txHash := "0x123";
                      DonateResult.explorer :=
                        "https://sepolia.basescan.org/tx/0x123" |}).
  { apply (S Sample.signer Sample.testnet (Network.token Sample.testnet)
             2500000 (Sample.mined "0x123"));
      try reflexivity. unfold uint256. lia. }
  split; [exact R|].
  destruct (N _ R)
    as (w & k & u & v & tx & _ & Hw & Hk & Hu & Hp & _ & _ & E & _).
  injection Hw as <-. injection Hk as <-. injection Hu as <-.
  injection Hp as <-. unfold writes. rewrite E. reflexivity.
Defined.

(** X9: createProposal makes no check of its own: with a signer, the
    first thing it does is send the transaction.  It reports success
    only after the confirmation and a successful re-read of the count,
    which it returns as the id; when the confirmation fails the count is
    not read; and when the re-read fails the call throws that failure
    although the transaction was confirmed. *)
Theorem createProposal_outcomes (chain : Ledger.t) (this : MoltDAOSkill)
    (title description : string) (w : Wallet) (k : Network.contracts_t) :
  wallet this = Some w ->
  contracts this = Some k ->
  let gov := Network.governance k in
  let me := wallet_address w in
  let send := SendTransaction me gov (m_createProposal title description) in
  let m := createProposal chain this title description in
  (exists rest, events m = send :: rest)
  /\ (forall e,
        Ledger.createProposal chain gov me title description = Throw e ->
        m = ([send], Throw e))
  /\ (forall tx e,
        Ledger.createProposal chain gov me title description = Ok tx ->
        Tx.wait tx = Throw e ->
        m = ([send; TxWait (Tx.hash tx)], Throw e))
  /\ (forall tx e,
        Ledger.createProposal chain gov me title description = Ok tx ->
        Tx.wait tx = Ok tt ->
        Ledger.proposalCount chain gov = Throw e ->
        m = ([send; TxWait (Tx.hash tx); EthCall gov m_proposalCount],
             Throw e))
  /\ (forall tx count,
        Ledger.createProposal chain gov me title description = Ok tx ->
        Tx.wait tx = Ok tt ->
        Ledger.proposalCount chain gov = Ok count ->
        m = ([send; TxWait (Tx.hash tx); EthCall gov m_proposalCount],
             Ok {| CreateResult.success := true;
                   CreateResult.proposalId := Js.Number count;
                   CreateResult.title := title;
                   CreateResult.txHash := Tx.hash tx;
                   CreateResult.explorer :=
                     explorer_link this (Tx.hash tx) |})).
Proof.
  intros Hw Hk gov me send m. subst gov me send m.
  unfold createProposal, this_contracts, await, events.
  rewrite Hw, Hk. cbn [bind ret].
  split; [|split; [|split; [|split]]].
  - destruct (Ledger.createProposal chain (Network.governance k)
                (wallet_address w) title description) as [tx|]; cbn [bind fst];
      [|eexists; reflexivity].
    destruct (Tx.wait tx); cbn [bind fst]; [|eexists; reflexivity].
    destruct (Ledger.proposalCount chain (Network.governance k));
      eexists; reflexivity.
  - intros e Hc. answer Hc. reflexivity.
  - intros tx e Hc Hwait. answer Hc. answer Hwait. reflexivity.
  - intros tx e Hc Hwait Hn. answer Hc. answer Hwait. answer Hn. reflexivity.
  - intros tx count Hc Hwait Hn. answer Hc. answer Hwait. answer Hn.
    reflexivity.
Qed.

Lemma createProposal_outcomes_witness :
  createProposal Cases.reverting_chain Sample.voter
    "Fund the reef" "Plant coral"
  = ([SendTransaction "0xA11CE" Sample.gov
        (m_createProposal "Fund the reef" "Plant coral");
      TxWait "0xdef"],
     Throw (JsError "transaction execution reverted"))
  /\ result (createProposal Sample.open_chain Sample.voter
               "Fund the reef" "Plant coral")
     = Ok {| CreateResult.success := true;
             CreateResult.proposalId := 2;
             CreateResult.title := "Fund the reef";
             CreateResult.txHash := "0xdef";
             CreateResult.explorer :=
               "https://sepolia.basescan.org/tx/0xdef" |}.
Proof.
  split.
  - destruct (createProposal_outcomes Cases.reverting_chain Sample.voter
                "Fund the reef" "Plant coral" Sample.signer Sample.testnet)
      as (_ & _ & W & _); [reflexivity | reflexivity |].
    apply (W (Cases.reverted "0xdef")); reflexivity.
  - destruct (createProposal_outcomes Sample.open_chain Sample.voter
                "Fund the reef" "Plant coral" Sample.signer Sample.testnet)
      as (_ & _ & _ & _ & S); [reflexivity | reflexivity |].
    rewrite (S (Sample.mined "0xdef") 2); reflexivity.
Defined.

(** ** getTreasury beyond the secondary read *)

(** X10: the three primary reads decide whether getTreasury returns.
    When they succeed and the splitter balance can be printed, the call
    returns the token fields whatever the network, the usdc entry and
    the outcome of the usdc read are; when one of them fails, the call
    throws one of their failures, all three reads have been started, and
    the usdc balance is never read. *)
Theorem getTreasury_primary_reads (chain : Ledger.t) (this : MoltDAOSkill)
    (k : Network.contracts_t) :
  contracts this = Some k ->
  let token := Network.token k in
  (forall sym d sb shown,
      Ledger.symbol chain token = Ok sym ->
      Ledger.decimals chain token = Ok d ->
      Ledger.balanceOf chain token (Network.splitter k) = Ok sb ->
      Ethers.formatUnits sb d = Ok shown ->
      exists t,
        result (getTreasury chain this) = Ok t
        /\ Treasury.token t
           = {| Treasury.address := token;
                Treasury.symbol := sym;
                Treasury.splitterBalance := shown |})
  /\ (is_throw (Ledger.symbol chain token)
      || is_throw (Ledger.decimals chain token)
      || is_throw (Ledger.balanceOf chain token (Network.splitter k)) = true ->
      events (getTreasury chain this) = treasury_reads k
      /\ exists e,
           result (getTreasury chain this) = Throw e
           /\ (Ledger.symbol chain token = Throw e
               \/ Ledger.decimals chain token = Throw e
               \/ Ledger.balanceOf chain token (Network.splitter k) = Throw e)).
Proof.
  intros Hk token. subst token.
  unfold getTreasury, this_contracts, Promise_all3, await, events, result,
    treasury_reads.
  rewrite Hk. cbn [bind ret fst snd app].
  split.
  - intros sym d sb shown Hs Hd Hb Hf.
    rewrite Hs, Hd, Hb. cbn [bind ret lift app fst snd]. rewrite Hf.
    cbn [bind ret lift app fst snd].
    destruct (String.eqb (network this) "testnet"
              && Js.truthy (Network.usdc k));
      [|eexists; split; reflexivity].
    destruct (Network.usdc k) as [u|];
      cbn [new_Contract bind ret throw try_catch app snd Treasury.token];
      [|eexists; split; reflexivity].
    destruct (Ledger.balanceOf chain u (Network.governance k));
      cbn; eexists; split; reflexivity.
  - destruct (Ledger.symbol chain (Network.token k)) as [sym|e1],
             (Ledger.decimals chain (Network.token k)) as [d|e2],
             (Ledger.balanceOf chain (Network.token k) (Network.splitter k))
               as [sb|e3];
      cbn [is_throw orb bind fst snd]; intros H; try discriminate H;
      (split; [reflexivity|]); eexists; split; try reflexivity; auto.
Qed.

Lemma getTreasury_primary_reads_witness :
  (exists t,
      result (getTreasury Sample.broken_aux_chain Cases.offnet_voter) = Ok t
      /\ Treasury.token t
         = {| Treasury.address := Network.token Sample.testnet;
              Treasury.symbol := "USDC";
              Treasury.splitterBalance := "1.0" |})
  /\ events (getTreasury Cases.down_chain Sample.reader)
     = treasury_reads Sample.testnet.
Proof.
  split.
  - destruct (getTreasury_primary_reads Sample.broken_aux_chain
                Cases.offnet_voter Sample.testnet) as (P & _); [reflexivity|].
    apply (P "USDC" 6 1000000 "1.0"); reflexivity.
  - destruct (getTreasury_primary_reads Cases.down_chain Sample.reader
                Sample.testnet) as (_ & F); [reflexivity|].
    destruct F as (E & _); [reflexivity | exact E].
Defined.

(** X11: the usdc balance is read on testnet only.  On a client of any
    other network getTreasury makes the three primary reads and returns
    a snapshot without usdc field, even when the network entry defines a
    usdc contract. *)
Theorem getTreasury_off_testnet (chain : Ledger.t) (this : MoltDAOSkill)
    (k : Network.contracts_t) (sym : string) (d sb : Z) (shown : string) :
  contracts this = Some k ->
  network this <> "testnet" ->
  Ledger.symbol chain (Network.token k) = Ok sym ->
  Ledger.decimals chain (Network.token k) = Ok d ->
  Ledger.balanceOf chain (Network.token k) (Network.splitter k) = Ok sb ->
  Ethers.formatUnits sb d = Ok shown ->
  getTreasury chain this
  = (treasury_reads k,
     Ok {| Treasury.token :=
             {| Treasury.address := Network.token k;
                Treasury.symbol := sym;
                Treasury.splitterBalance := shown |};
           Treasury.usdc := None |}).
Proof.
  intros Hk Hn Hs Hd Hb Hf.
  unfold getTreasury, this_contracts, Promise_all3, await, events, result,
    treasury_reads.
  rewrite Hk. cbn [bind ret fst snd app].
  rewrite Hs, Hd, Hb. cbn [bind ret lift app]. rewrite Hf.
  cbn [bind ret lift app].
  destruct (String.eqb_spec (network this) "testnet"); [contradiction|].
  reflexivity.
Qed.

Lemma getTreasury_off_testnet_witness :
  Network.usdc Sample.testnet <> None
  /\ getTreasury Sample.open_chain Cases.offnet_voter
     = (treasury_reads Sample.testnet,
        Ok {| Treasury.token :=
                {| Treasury.address := Network.token Sample.testnet;
                   Treasury.symbol := "USDC";
                   Treasury.splitterBalance := "1.0" |};
              Treasury.usdc := None |}).
Proof.
  split; [discriminate|].
  apply (getTreasury_off_testnet Sample.open_chain Cases.offnet_voter
           Sample.testnet "USDC" 6 1000000 "1.0");
    try reflexivity. discriminate.
Defined.

(** ** The constructor and what it hands to the operations *)

(** X12: for an absent, empty or testnet selector the constructor
    creates the provider for the testnet endpoint and takes the contract
    addresses and explorer of the table.  The key is the one of the
    configuration when that is non-empty, else the environment's; with
    no non-empty key there is no wallet; with one, the wallet carries
    the address derived from it; and a key that cannot be turned into a
    wallet makes the constructor throw, after the provider was created. *)
Theorem constructor_testnet (host : Host) (config : Config) :
  Js.truthy (config_network config) = false
  \/ config_network config = Some "testnet" ->
  let key :=
    Js.or_else (config_privateKey config) (MOLTDAO_PRIVATE_KEY host) in
  let client w :=
    {| network := "testnet";
       privateKey := key;
       provider := "https://sepolia.base.org";
       contracts := Some Sample.testnet;
       explorer := Some "https://sepolia.basescan.org";
       wallet := w |} in
  let created := [ProviderCreated "https://sepolia.base.org"] in
  (Js.truthy (config_privateKey config) = true ->
   key = config_privateKey config)
  /\ (Js.truthy (config_privateKey config) = false ->
      key = MOLTDAO_PRIVATE_KEY host)
  /\ (Js.truthy key = false ->
      constructor host config = (created, Ok (client None)))
  /\ (forall s a,
        key = Some s -> s <> "" -> computeAddress host s = Ok a ->
        constructor host config
        = (created,
           Ok (client (Some {| wallet_key := s; wallet_address := a |}))))
  /\ (forall s e,
        key = Some s -> s <> "" -> computeAddress host s = Throw e ->
        constructor host config = (created, Throw e)).
Proof.
  intros Hsel key client created.
  assert (Hnet : match Js.or_else (config_network config) (Some "testnet") with
                 | Some n => n
                 | None => "testnet"
                 end = "testnet").
  { unfold Js.or_else. destruct Hsel as [H|H]; rewrite H; reflexivity. }
  assert (T : forall s, s <> "" -> Js.truthy (Some s) = true).
  { intros s Hs. unfold Js.truthy.
    destruct (String.eqb_spec s ""); [contradiction|reflexivity]. }
  split; [|split; [|split; [|split]]].
  - intros H. subst key. unfold Js.or_else. rewrite H. reflexivity.
  - intros H. subst key. unfold Js.or_else. rewrite H. reflexivity.
  - intros Hf. unfold constructor. rewrite Hnet. fold key.
    cbn [get_property own_property NETWORKS String.eqb Ascii.eqb Bool.eqb].
    destruct key as [s|]; [rewrite Hf|]; reflexivity.
  - intros s a Hkey Hs Ha. unfold constructor. rewrite Hnet. fold key.
    cbn [get_property own_property NETWORKS String.eqb Ascii.eqb Bool.eqb].
    subst client created. cbv zeta. rewrite Hkey, (T s Hs).
    unfold new_Wallet, lift. rewrite Ha. reflexivity.
  - intros s e Hkey Hs He. unfold constructor. rewrite Hnet. fold key.
    cbn [get_property own_property NETWORKS String.eqb Ascii.eqb Bool.eqb].
    subst created. rewrite Hkey, (T s Hs).
    unfold new_Wallet, lift. rewrite He. reflexivity.
Qed.

Lemma constructor_testnet_witness :
  constructor Cases.env_host
    {| config_network := None; config_privateKey := Some "" |}
  = ([ProviderCreated "https://sepolia.base.org"],
     Ok {| network := "testnet";
           privateKey := Some "0x02";
           provider := "https://sepolia.base.org";
           contracts := Some Sample.testnet;
           explorer := Some "https://sepolia.basescan.org";
           wallet := Some {| wallet_key := "0x02";
                             wallet_address := "0xADD2E55:0x02" |} |})
  /\ constructor Cases.env_host
       {| config_network := Some "testnet"; config_privateKey := Some "bad" |}
     = ([ProviderCreated "https://sepolia.base.org"],
        Throw (JsTypeError "invalid private key")).
Proof.
  split.
  - destruct (constructor_testnet Cases.env_host
                {| config_network := None; config_privateKey := Some "" |})
      as (_ & _ & _ & W & _); [left; reflexivity|].
    apply (W "0x02" "0xADD2E55:0x02");
      [reflexivity | discriminate | reflexivity].
  - destruct (constructor_testnet Cases.env_host
                {| config_network := Some "testnet";
                   config_privateKey := Some "bad" |})
      as (_ & _ & _ & _ & B); [right; reflexivity|].
    apply (B "bad"); [reflexivity | discriminate | reflexivity].
Defined.

Lemma inherited_property (selector : string) :
  In selector Object_prototype_keys ->
  get_property NETWORKS selector = Inherited /\ selector <> ""
  /\ selector <> "testnet".
Proof.
  unfold Object_prototype_keys. cbn [In].
  intros H. repeat (destruct H as [<-|H]; [repeat split; discriminate|]).
  contradiction.
Qed.

(** X13: a client constructed with a selector that NETWORKS only
    inherits (constructor, toString, ...) is created with a provider on
    the default endpoint of ethers and without contract addresses, and
    then cannot reach the ledger: each read function throws the
    TypeError of reading a field of the undefined contracts, and each
    write function throws as well, all without any event. *)
Theorem inherited_selector_client (host : Host) (config : Config)
    (selector : string) (c : MoltDAOSkill) (chain : Ledger.t) :
  config_network config = Some selector ->
  In selector Object_prototype_keys ->
  result (constructor host config) = Ok c ->
  events (constructor host config) = [ProviderCreated "http://localhost:8545"]
  /\ network c = selector /\ contracts c = None
  /\ getProposals chain c
     = ([], Throw (JsTypeError (no_contracts_message "governance")))
  /\ (forall who,
        getVotingPower chain c who
        = ([], Throw (JsTypeError (no_contracts_message "governance"))))
  /\ (forall proposalId who,
        hasVoted chain c proposalId who
        = ([], Throw (JsTypeError (no_contracts_message "governance"))))
  /\ getTreasury chain c
     = ([], Throw (JsTypeError (no_contracts_message "token")))
  /\ (forall proposalId support,
        events (vote chain c proposalId support) = []
        /\ is_throw (result (vote chain c proposalId support)) = true)
  /\ (forall amount,
        donateUSDC chain c amount
        = ([], Throw (JsError testnet_only_message)))
  /\ (forall title description,
        events (createProposal chain c title description) = []
        /\ is_throw (result (createProposal chain c title description))
           = true).
Proof.
  intros Hs Hin Hc.
  destruct (inherited_property selector Hin) as (Hp & Hne & Hnt).
  assert (T : Js.truthy (Some selector) = true).
  { unfold Js.truthy.
    destruct (String.eqb_spec selector ""); [contradiction|reflexivity]. }
  assert (D : forall amount pk w,
             donateUSDC chain
               {| network := selector;
                  privateKey := pk;
                  provider := "http://localhost:8545";
                  contracts := None; explorer := None; wallet := w |} amount
             = ([], Throw (JsError testnet_only_message))).
  { intros amount pk w. unfold donateUSDC. cbn [network].
    destruct (String.eqb_spec selector "testnet");
      [contradiction | reflexivity]. }
  assert (N : match Js.or_else (Some selector) (Some "testnet") with
              | Some n => n
              | None => "testnet"
              end = selector).
  { unfold Js.or_else. rewrite T. reflexivity. }
  revert Hc. unfold constructor, result, events.
  rewrite Hs, N, Hp.
  cbn [option_map new_JsonRpcProvider emit bind ret app fst snd].
  destruct (Js.or_else (config_privateKey config) (MOLTDAO_PRIVATE_KEY host))
    as [s|] eqn:Ek;
    [ destruct (Js.truthy (Some s));
      [ unfold new_Wallet, lift;
        destruct (computeAddress host s) as [a|e]; cbn; [|discriminate]
      | cbn ]
    | cbn ];
    intros H; injection H as <-;
    (split; [reflexivity|]); (split; [reflexivity|]); (split; [reflexivity|]);
    (split; [reflexivity|]); (split; [reflexivity|]); (split; [reflexivity|]);
    (split; [reflexivity|]); (split; [split; reflexivity|]);
    (split; [intros amount; apply D | split; reflexivity]).
Qed.

Lemma inherited_selector_client_witness :
  getTreasury Sample.open_chain
    {| network := "toString"; privateKey := None;
       provider := "http://localhost:8545";
       contracts := None; explorer := None; wallet := None |}
  = ([], Throw (JsTypeError
                  "Cannot read properties of undefined (reading 'token')")).
Proof.
  destruct (inherited_selector_client Sample.host
              {| config_network := Some "toString"; config_privateKey := None |}
              "toString"
              {| network := "toString"; privateKey := None;
                 provider := "http://localhost:8545";
                 contracts := None; explorer := None; wallet := None |}
              Sample.open_chain)
    as (_ & _ & _ & _ & _ & _ & G & _);
    [reflexivity | cbn; tauto | reflexivity | exact G].
Defined.

(** X14: a constructed client holds a wallet exactly when a non-empty
    key was given, by the configuration or else by the environment, and
    the address of that wallet is the one derived from this key.  So
    vote on a client constructed without such a key ends with the
    missing-key error and no event. *)
Theorem constructor_wallet (host : Host) (config : Config)
    (c : MoltDAOSkill) :
  result (constructor host config) = Ok c ->
  let key :=
    Js.or_else (config_privateKey config) (MOLTDAO_PRIVATE_KEY host) in
  privateKey c = key
  /\ (wallet c = None <-> Js.truthy key = false)
  /\ (forall w,
        wallet c = Some w ->
        exists s,
          key = Some s /\ s <> ""
          /\ computeAddress host s = Ok (wallet_address w))
  /\ (Js.truthy key = false ->
      forall chain proposalId support,
        vote chain c proposalId support
        = ([], Throw (JsError no_signer_message))).
Proof.
  intros Hc key.
  assert (G : privateKey c = key
              /\ (wallet c = None <-> Js.truthy key = false)
              /\ (forall w,
                    wallet c = Some w ->
                    exists s,
                      key = Some s /\ s <> ""
                      /\ computeAddress host s = Ok (wallet_address w))).
  { revert Hc. unfold constructor, result. fold key.
    destruct (get_property NETWORKS _) as [nc| |]; [| |discriminate];
      cbn [option_map new_JsonRpcProvider emit bind ret app fst snd];
      (destruct key as [s|] eqn:Ek;
       [ destruct (Js.truthy (Some s)) eqn:Et;
         [ unfold new_Wallet, lift;
           destruct (computeAddress host s) as [a|e] eqn:Ea;
           cbn; [|discriminate] | cbn ]
       | cbn ]);
      intros H; injection H as <-; cbn;
      (split; [reflexivity|]); split;
      try (split; [discriminate | congruence]);
      try (split; [reflexivity | reflexivity]);
      try (intros w Hw; discriminate Hw);
      try (intros w Hw; injection Hw as <-; cbn; exists s;
           repeat split; auto;
           intros ->; discriminate Et). }
  destruct G as (P & I & A). split; [exact P|]. split; [exact I|].
  split; [exact A|].
  intros Hf chain proposalId support. unfold vote.
  apply I in Hf. rewrite Hf. reflexivity.
Qed.

Lemma constructor_wallet_witness :
  vote Sample.open_chain (Sample.client (Some Sample.testnet) None) 1 true
  = ([], Throw (JsError no_signer_message)).
Proof.
  destruct (constructor_wallet Sample.host
              {| config_network := None; config_privateKey := None |}
              (Sample.client (Some Sample.testnet) None))
    as (_ & _ & _ & V); [reflexivity|].
  apply V. reflexivity.
Defined.

(** ** The printed amounts read back *)

Section ReadBack.

Import Ethers.

Lemma digit_not_minus (c : ascii) :
  is_digit c = true -> Ascii.eqb c "-" = false.
Proof.
  intros H.
  destruct (Ascii.eqb_spec c "-") as [->|]; [discriminate H | reflexivity].
Qed.

Lemma digits_forallb (l : list ascii) : digits l -> forallb is_digit l = true.
Proof.
  intros H. apply forallb_forall. intros c Hc.
  unfold digits in H. rewrite Forall_forall in H. apply H. exact Hc.
Qed.

Lemma split_point_digits (w f : list ascii) :
  digits w -> split_point (w ++ "."%char :: f) = (w, Some f).
Proof.
  induction w as [|c w IH]; intros H; [reflexivity|].
  inversion H as [|c0 w0 Hc Hw]; subst. cbn [app split_point].
  destruct (Ascii.eqb_spec c ".") as [E|_];
    [exfalso; exact (digit_not_point c Hc E)|].
  rewrite (IH Hw). reflexivity.
Qed.

Lemma split_point_whole (w : list ascii) :
  digits w -> split_point w = (w, None).
Proof.
  induction w as [|c w IH]; intros H; [reflexivity|].
  inversion H as [|c0 w0 Hc Hw]; subst. cbn [split_point].
  destruct (Ascii.eqb_spec c ".") as [E|_];
    [exfalso; exact (digit_not_point c Hc E)|].
  rewrite (IH Hw). reflexivity.
Qed.

Lemma zeros_forallb (j : nat) : forallb (Ascii.eqb "0") (zeros j) = true.
Proof. induction j as [|j IH]; [reflexivity|exact IH]. Qed.

(** Reading a run of digits, a point and at most [d] more digits. *)
Lemma parseUnits_text (W F : list ascii) (d : nat) :
  digits W -> digits F -> W <> [] -> (length F <= d)%nat ->
  Z.of_nat d <= max_decimals ->
  Z.of_N (digits_value (W ++ F ++ zeros (d - length F))) < 2 ^ 511 ->
  parseUnits (string_of_list_ascii (W ++ "."%char :: F)) (Z.of_nat d)
  = Ok (Z.of_N (digits_value (W ++ F ++ zeros (d - length F)))).
Proof.
  intros DW DF HW HL Hd Hv. unfold parseUnits.
  rewrite list_ascii_of_string_of_list_ascii, Nat2Z.id.
  destruct W as [|c W']; [contradiction|].
  inversion DW as [|c0 w0 Hc HW']; subst.
  cbn [app]. rewrite (digit_not_minus c Hc).
  change (c :: W' ++ "."%char :: F) with ((c :: W') ++ "."%char :: F).
  rewrite (split_point_digits (c :: W') F DW).
  rewrite (digits_forallb _ DW), (digits_forallb _ DF).
  cbn [andb negb orb length Nat.add Nat.eqb].
  destruct (Z.ltb_spec max_decimals (Z.of_nat d)) as [|_]; [lia|].
  rewrite skipn_all2 by exact HL. cbn [forallb negb].
  rewrite firstn_all2 by (rewrite length_app, zeros_length; lia).
  set (v := Z.of_N (digits_value
                      ((c :: W') ++ F ++ zeros (d - length F)))) in *.
  assert (H0 : 0 <= v) by (subst v; lia).
  destruct (Z.ltb_spec v (- 2 ^ 511)) as [|_]; [lia|].
  destruct (Z.leb_spec (2 ^ 511) v) as [|_]; [lia|].
  reflexivity.
Qed.

Lemma parseUnits_whole_text (ds : list ascii) :
  digits ds -> ds <> [] ->
  Z.of_N (digits_value ds) < 2 ^ 511 ->
  parseUnits (string_of_list_ascii ds) 0 = Ok (Z.of_N (digits_value ds)).
Proof.
  intros D HN Hv. unfold parseUnits.
  rewrite list_ascii_of_string_of_list_ascii.
  destruct ds as [|c ds']; [contradiction|].
  inversion D as [|c0 w0 Hc Hds]; subst.
  rewrite (digit_not_minus c Hc), (split_point_whole _ D), (digits_forallb _ D).
  cbn [forallb andb negb orb length Nat.add Nat.eqb Z.to_nat skipn firstn
       Z.ltb Z.compare max_decimals].
  rewrite app_nil_r.
  set (v := Z.of_N (digits_value (c :: ds'))) in *.
  assert (H0 : 0 <= v) by (subst v; lia).
  destruct (Z.ltb_spec v (- 2 ^ 511)) as [|_]; [lia|].
  destruct (Z.leb_spec (2 ^ 511) v) as [|_]; [lia|].
  reflexivity.
Qed.

(** The parts of the printed text, with the whole part not empty. *)
Lemma fixed_toString_parts (x : Z) (d : nat) :
  0 <= x -> (0 < d)%nat ->
  exists W F j,
    fixed_toString x d = string_of_list_ascii (W ++ "."%char :: F)
    /\ digits W /\ digits F /\ W <> []
    /\ (length F + j = d)%nat
    /\ Z.to_N x = (digits_value (W ++ F) * 10 ^ N.of_nat j)%N.
Proof.
  intros Hx Hd. unfold fixed_toString.
  destruct (Z.ltb_spec x 0) as [Hn|_]; [lia|].
  rewrite Z.abs_eq by assumption.
  destruct (toString_digits x Hx) as (Dds & Vds & _).
  set (ds := list_ascii_of_string (Js.toString x)) in *.
  destruct d as [|d0]; [lia|]. set (d := S d0) in *.
  set (padded := zeros (S d - length ds) ++ ds).
  assert (Lp : (d < length padded)%nat).
  { unfold padded. rewrite length_app, zeros_length. lia. }
  assert (Dp : digits padded).
  { unfold padded. apply Forall_app. split; [apply digits_zeros|exact Dds]. }
  set (index := (length padded - d)%nat).
  pose proof (firstn_skipn index padded) as Split.
  assert (Lw : length (firstn index padded) = index).
  { apply firstn_length_le. unfold index. lia. }
  set (whole := firstn index padded) in *.
  set (frac := skipn index padded) in *.
  assert (Lf : length frac = d).
  { unfold frac. rewrite length_skipn. unfold index. lia. }
  assert (Dwf : digits whole /\ digits frac).
  { apply Forall_app. rewrite Split. exact Dp. }
  destruct Dwf as [Dw Df].
  assert (Nw : whole <> []).
  { intros E. rewrite E in Lw. simpl in Lw. unfold index in Lw. lia. }
  destruct (trim_leading_point whole frac Dw) as (j1 & W & E1 & T1 & NW & DW).
  destruct (trim_trailing_point W frac Df) as (j2 & F & E2 & T2 & _ & DF).
  exists W, F, j2. rewrite T1, T2. cbn [app].
  repeat split; try assumption.
  - apply NW. exact Nw.
  - rewrite <- Lf, E2, length_app, zeros_length. reflexivity.
  - rewrite <- Vds.
    rewrite <- (digits_value_lead_zeros (S d - length ds) ds).
    fold padded. rewrite <- Split, E1, E2.
    rewrite <- app_assoc, digits_value_lead_zeros.
    rewrite app_assoc. apply digits_value_trail_zeros.
Qed.

(** What formatUnits prints, parseUnits reads back. *)
Lemma parseUnits_formatUnits (x d : Z) (text : string) :
  0 <= x < 2 ^ 511 -> 0 <= d ->
  formatUnits x d = Ok text -> parseUnits text d = Ok x.
Proof.
  intros Hx Hd. unfold formatUnits.
  destruct (Z.ltb_spec max_decimals d) as [|Hle]; [discriminate|].
  intros E. injection E as <-.
  rewrite <- (Z2Nat.id d Hd) at 2.
  destruct (Z.to_nat d) as [|n] eqn:En.
  - destruct (fixed_toString_whole x (proj1 Hx)) as (ds & E0 & D0).
    pose proof E0 as E0'. unfold fixed_toString in E0'.
    destruct (Z.ltb_spec x 0) as [|_]; [lia|].
    rewrite Z.abs_eq in E0' by lia. cbn [app] in E0'.
    apply string_of_list_ascii_inj in E0'.
    destruct (toString_digits x (proj1 Hx)) as (_ & V & NE).
    cbv zeta in V, NE. rewrite E0' in V, NE.
    rewrite E0. change (Z.of_nat 0) with 0.
    rewrite parseUnits_whole_text; rewrite ?V; try assumption; [|lia].
    f_equal. lia.
  - destruct (fixed_toString_parts x (S n) (proj1 Hx))
      as (W & F & j & E1 & DW & DF & NW & L & V); [lia|].
    assert (J : (S n - length F = j)%nat) by lia.
    assert (Vz : digits_value (W ++ F ++ zeros (S n - length F)) = Z.to_N x).
    { rewrite J, app_assoc, digits_value_trail_zeros. symmetry. exact V. }
    rewrite E1, parseUnits_text; rewrite ?Vz; try assumption; try lia.
    f_equal. lia.
Qed.

Lemma toString_zero (z : Z) : Js.toString z = "0" -> z = 0.
Proof.
  intros E. destruct (Z.ltb_spec z 0) as [Hn|Hp].
  - unfold Js.toString in E.
    destruct (Z.ltb_spec z 0) as [_|]; [discriminate E | lia].
  - destruct (toString_digits z Hp) as (_ & V & _). cbv zeta in V.
    rewrite E in V. cbn in V. lia.
Qed.

End ReadBack.

(** X15: the two texts of a voting power denote the same weight.  For a
    weight in the uint256 range, getVotingPower makes the one read and
    returns the address asked for, a scaled text that converts back to
    the weight at 18 decimals, and a raw text that reads as the weight
    itself: the scaling loses no digit. *)
Theorem getVotingPower_texts (chain : Ledger.t) (this : MoltDAOSkill)
    (k : Network.contracts_t) (who : address) (power : Z) :
  contracts this = Some k ->
  Ledger.getVotingPower chain (Network.governance k) who = Ok power ->
  uint256 power ->
  exists v,
    getVotingPower chain this who
    = ([EthCall (Network.governance k) (m_getVotingPower who)], Ok v)
    /\ VotingPower.address v = who
    /\ Ethers.parseUnits (VotingPower.votingPower v) 18 = Ok power
    /\ Ethers.parseUnits (VotingPower.raw v) 0 = Ok power
    /\ (VotingPower.raw v = "0" <-> power = 0).
Proof.
  intros Hk Hp [H0 H1].
  assert (R : 0 <= power < 2 ^ 511).
  { split; [exact H0|]. apply (Z.lt_trans _ (2 ^ 256)); [exact H1|].
    apply Z.pow_lt_mono_r; lia. }
  eexists. split.
  - unfold getVotingPower, this_contracts, await. rewrite Hk.
    cbn [bind ret]. rewrite Hp. reflexivity.
  - cbn [VotingPower.address VotingPower.votingPower VotingPower.raw].
    split; [reflexivity|]. split; [|split].
    + apply parseUnits_formatUnits; [exact R | lia | reflexivity].
    + apply parseUnits_formatUnits; [exact R | lia |].
      unfold Ethers.formatUnits, Ethers.fixed_toString.
      cbn [Ethers.max_decimals Z.ltb Z.compare Z.to_nat].
      destruct (Z.ltb_spec power 0) as [|_]; [lia|].
      rewrite Z.abs_eq by lia. cbn [app].
      rewrite string_of_list_ascii_of_string. reflexivity.
    + split; [apply toString_zero | intros ->; reflexivity].
Qed.

Lemma getVotingPower_texts_witness :
  exists v,
    result (getVotingPower Sample.open_chain Sample.reader "0xA11CE") = Ok v
    /\ VotingPower.votingPower v = "0.000000000000000001"
    /\ Ethers.parseUnits (VotingPower.votingPower v) 18 = Ok 1
    /\ VotingPower.raw v = "1".
Proof.
  destruct (getVotingPower_texts Sample.open_chain Sample.reader
              Sample.testnet "0xA11CE" 1) as (v & E & _ & P & _);
    [reflexivity | reflexivity | unfold uint256; lia |].
  exists v. split; [rewrite E; reflexivity|].
  split; [|split; [exact P|]];
    injection E as <-; reflexivity.
Defined.

(** ** The guards of vote and the read functions *)

(** X16: the guards of vote ask the ledger what the read functions ask.
    When hasVoted answers true for the signer's own address, vote on an
    active proposal ends with the already-voted error; when
    getVotingPower reports the raw weight 0 for the signer, vote ends
    with the no-voting-power error once the first guards are passed; and
    when the listing shows a proposal as not active, vote on its id ends
    with the not-active error.  No transaction is submitted in any of
    the three cases. *)
Theorem vote_agrees_with_reads (chain : Ledger.t) (this : MoltDAOSkill)
    (proposalId : Z) (support : bool) (w : Wallet) (k : Network.contracts_t) :
  wallet this = Some w ->
  contracts this = Some k ->
  let gov := Network.governance k in
  let me := wallet_address w in
  let m := vote chain this proposalId support in
  (forall pr,
      fetched chain gov proposalId = Some pr ->
      Proposal.isActive pr = false ->
      m = ([EthCall gov (m_isProposalActive proposalId)],
           Throw (JsError (not_active_message proposalId))))
  /\ (result (hasVoted chain this proposalId me) = Ok true ->
      Ledger.isProposalActive chain gov proposalId = Ok true ->
      m = ([EthCall gov (m_isProposalActive proposalId);
            EthCall gov (m_hasUserVoted proposalId me)],
           Throw (JsError (already_voted_message proposalId))))
  /\ (forall v,
        result (getVotingPower chain this me) = Ok v ->
        VotingPower.raw v = "0" ->
        Ledger.isProposalActive chain gov proposalId = Ok true ->
        Ledger.hasUserVoted chain gov proposalId me = Ok false ->
        m = (vote_reads gov me proposalId, Throw (JsError no_power_message))).
Proof.
  intros Hw Hk gov me m. subst gov me m.
  unfold vote, hasVoted, getVotingPower, result, this_contracts, await.
  rewrite Hw, Hk. cbn [bind ret snd].
  split; [|split].
  - intros pr Hf Ha. unfold fetched in Hf.
    destruct (Ledger.getProposal chain (Network.governance k) proposalId);
      [|discriminate].
    destruct (Ledger.getProposalResult chain (Network.governance k) proposalId);
      [|discriminate].
    destruct (Ledger.isProposalActive chain (Network.governance k) proposalId)
      as [act|]; [|discriminate].
    injection Hf as <-. cbn in Ha. subst act. reflexivity.
  - intros Hv Ha. answer Ha. answer Hv. reflexivity.
  - intros v Hv Hraw Ha Hvoted.
    destruct (Ledger.getVotingPower chain (Network.governance k)
                (wallet_address w)) as [power|]; [|discriminate].
    cbn in Hv. injection Hv as <-. cbn in Hraw.
    apply toString_zero in Hraw. subst power.
    answer Ha. answer Hvoted. reflexivity.
Qed.

Lemma vote_agrees_with_reads_witness :
  result (hasVoted Cases.voted_chain Sample.voter 1 "0xA11CE") = Ok true
  /\ vote Cases.voted_chain Sample.voter 1 true
     = ([EthCall Sample.gov (m_isProposalActive 1);
         EthCall Sample.gov (m_hasUserVoted 1 "0xA11CE")],
        Throw (JsError (already_voted_message 1))).
Proof.
  split; [reflexivity|].
  destruct (vote_agrees_with_reads Cases.voted_chain Sample.voter 1 true
              Sample.signer Sample.testnet) as (_ & V & _);
    [reflexivity | reflexivity |].
  apply V; reflexivity.
Defined.

(** ** The fields of a listed proposal *)

Lemma round_double_small (z : Z) : 0 <= z < 2 ^ 53 -> Js.round_double z = z.
Proof. intros H. apply Number_exact. lia. Qed.

Lemma round_double_large (z : Z) : 2 ^ 53 <= z -> 2 ^ 53 <= Js.round_double z.
Proof.
  intros H. unfold Js.round_double.
  assert (Hz : 0 < z) by lia.
  rewrite Z.abs_eq by lia.
  assert (L : 53 <= Z.log2 z) by (apply Z.log2_le_pow2; lia).
  destruct (Z.leb_spec (Z.log2 z + 1) 53) as [|_]; [lia|].
  set (e := Z.log2 z + 1 - 53).
  assert (He : 1 <= e) by (unfold e; lia).
  assert (P : 2 ^ 52 * 2 ^ e <= z).
  { rewrite <- Z.pow_add_r by lia.
    replace (52 + e) with (Z.log2 z) by (unfold e; lia).
    apply Z.log2_spec. exact Hz. }
  assert (Pe : 2 <= 2 ^ e).
  { change 2 with (2 ^ 1) at 1. apply Z.pow_le_mono_r; lia. }
  assert (Q : 2 ^ 52 <= z / 2 ^ e).
  { apply Z.div_le_lower_bound; lia. }
  rewrite Z.sgn_pos by exact Hz.
  set (q := z / 2 ^ e) in *.
  assert (Q' : q <= (if (2 ^ (e - 1) <? z mod 2 ^ e)
                        || ((z mod 2 ^ e =? 2 ^ (e - 1)) && Z.odd q)
                     then q + 1 else q)).
  { destruct ((2 ^ (e - 1) <? z mod 2 ^ e)
              || ((z mod 2 ^ e =? 2 ^ (e - 1)) && Z.odd q)); lia. }
  set (q' := if (2 ^ (e - 1) <? z mod 2 ^ e)
                || ((z mod 2 ^ e =? 2 ^ (e - 1)) && Z.odd q)
             then q + 1 else q) in *.
  change (2 ^ 53) with (2 ^ 52 * 2).
  rewrite Z.mul_1_l.
  apply Z.mul_le_mono_nonneg; lia.
Qed.

(** Seconds to the time value of [new Date(Number(s) * 1000)]. *)
Lemma seconds_to_Date (s : Z) :
  0 <= s ->
  Js.Date (Js.mul (Js.Number s) 1000)
  = if s <=? 8640000000000 then Some (1000 * s) else None.
Proof.
  intros H0. unfold Js.Date, Js.mul, Js.Number.
  destruct (Z.leb_spec s 8640000000000) as [Hs|Hs].
  - rewrite (round_double_small s) by lia.
    rewrite (round_double_small (s * 1000)) by lia.
    rewrite Z.abs_eq by lia.
    destruct (Z.leb_spec (s * 1000) 8640000000000000); [f_equal|]; lia.
  - assert (N : 8640000000000 < Js.round_double s).
    { destruct (Z.lt_ge_cases s (2 ^ 53)) as [Hl|Hg].
      - rewrite round_double_small by lia. exact Hs.
      - pose proof (round_double_large s Hg). lia. }
    set (n := Js.round_double s) in *.
    assert (P : 8640000000000000 < Js.round_double (n * 1000)).
    { destruct (Z.lt_ge_cases (n * 1000) (2 ^ 53)) as [Hl|Hg].
      - rewrite round_double_small by lia. lia.
      - pose proof (round_double_large (n * 1000) Hg). lia. }
    rewrite Z.abs_eq by lia.
    destruct (Z.leb_spec (Js.round_double (n * 1000)) 8640000000000000);
      [lia | reflexivity].
Qed.

(** X17: what a listed proposal shows of the contract's record, for
    record fields in the uint256 range.  Its start and end times are the
    contract's seconds taken as milliseconds times 1000, and beyond
    8_640_000_000_000 seconds they are an Invalid Date, which raises
    nothing; its three vote totals are texts that convert back, at 18
    decimals, to the contract's integers. *)
Theorem listed_proposal_fields (chain : Ledger.t) (gov : address) (i : Z)
    (pr : Proposal.t) (p : AbiProposal.t) (res : AbiResult.t) :
  result (fetchProposal chain gov i) = Ok pr ->
  Ledger.getProposal chain gov i = Ok p ->
  Ledger.getProposalResult chain gov i = Ok res ->
  uint256 (AbiProposal.startTime p) -> uint256 (AbiProposal.endTime p) ->
  uint256 (AbiProposal.yesVotes p) -> uint256 (AbiProposal.noVotes p) ->
  uint256 (AbiResult.totalVotes res) ->
  Proposal.startTime pr
  = (if AbiProposal.startTime p <=? 8640000000000
     then Some (1000 * AbiProposal.startTime p) else None)
  /\ Proposal.endTime pr
     = (if AbiProposal.endTime p <=? 8640000000000
        then Some (1000 * AbiProposal.endTime p) else None)
  /\ Ethers.parseUnits (Proposal.yesVotes pr) 18 = Ok (AbiProposal.yesVotes p)
  /\ Ethers.parseUnits (Proposal.noVotes pr) 18 = Ok (AbiProposal.noVotes p)
  /\ Ethers.parseUnits (Proposal.totalVotes pr) 18
     = Ok (AbiResult.totalVotes res).
Proof.
  intros Hr Hp Hres Hs He Hy Hn Ht.
  assert (B : forall v, uint256 v -> 0 <= v < 2 ^ 511).
  { intros v [H0 H1]. split; [exact H0|].
    apply (Z.lt_trans _ (2 ^ 256)); [exact H1|].
    apply Z.pow_lt_mono_r; lia. }
  rewrite fetchProposal_result in Hr. unfold fetch_error, fetched in Hr.
  rewrite Hp, Hres in Hr.
  destruct (Ledger.isProposalActive chain gov i) as [a|]; [|discriminate].
  injection Hr as <-.
  cbn [assemble Proposal.startTime Proposal.endTime Proposal.yesVotes
       Proposal.noVotes Proposal.totalVotes].
  split; [apply seconds_to_Date; apply Hs|].
  split; [apply seconds_to_Date; apply He|].
  repeat split; apply parseUnits_formatUnits;
    try (apply B; assumption); try lia; reflexivity.
Qed.

Lemma listed_proposal_fields_witness :
  exists pr,
    result (fetchProposal Sample.open_chain Sample.gov 1) = Ok pr
    /\ Proposal.startTime pr = Some 1700000000000
    /\ Proposal.yesVotes pr = "1.5"
    /\ Ethers.parseUnits (Proposal.yesVotes pr) 18 = Ok 1500000000000000000.
Proof.
  eexists. split; [reflexivity|].
  destruct (listed_proposal_fields Sample.open_chain Sample.gov 1
              (assemble (Sample.proposal 1 1) Sample.tally true)
              (Sample.proposal 1 1) Sample.tally)
    as (S & _ & Y & _);
    try reflexivity; try (unfold uint256; cbn; lia).
  split; [exact S|]. split; [reflexivity | exact Y].
Defined.

(** ** Two more facts on what the client is and does *)

(** X18: the constructor has two outcomes only.  A client it returns is
    either the testnet client, with the endpoint, contract addresses and
    explorer of the table, or a client named after a property NETWORKS
    inherits, on the default endpoint and with neither contracts nor
    explorer.  Either way exactly one provider was created, and the
    network of the client is testnet exactly when it has contracts. *)
Theorem constructor_shapes (host : Host) (config : Config)
    (c : MoltDAOSkill) :
  result (constructor host config) = Ok c ->
  events (constructor host config) = [ProviderCreated (provider c)]
  /\ ((network c = "testnet"
       /\ provider c = "https://sepolia.base.org"
       /\ contracts c = Some Sample.testnet
       /\ explorer c = Some "https://sepolia.basescan.org")
      \/ (In (network c) Object_prototype_keys
          /\ provider c = "http://localhost:8545"
          /\ contracts c = None
          /\ explorer c = None))
  /\ (network c = "testnet" <-> contracts c <> None).
Proof.
  unfold constructor, result, events.
  set (n := match Js.or_else (config_network config) (Some "testnet") with
            | Some n => n
            | None => "testnet"
            end).
  set (key := Js.or_else (config_privateKey config) (MOLTDAO_PRIVATE_KEY host)).
  unfold get_property.
  destruct (own_property NETWORKS n) as [nc|] eqn:Eo.
  - assert (En : n = "testnet"
                 /\ nc = match NETWORKS with
                         | (_, v) :: _ => v
                         | [] => nc
                         end).
    { revert Eo. unfold NETWORKS. cbn [own_property].
      destruct (String.eqb_spec "testnet" n) as [<-|]; [|discriminate].
      intros H. injection H as <-. auto. }
    destruct En as [En ->]. rewrite En.
    cbn [NETWORKS option_map new_JsonRpcProvider emit bind ret app fst snd
         Network.rpc Network.contracts Network.explorer].
    destruct key as [s|];
      [ destruct (Js.truthy (Some s));
        [ unfold new_Wallet, lift;
          destruct (computeAddress host s) as [a|e]; cbn; [|discriminate]
        | cbn ]
      | cbn ];
      intros H; injection H as <-; cbn;
      (split; [reflexivity|]); (split; [left; auto|]);
      (split; [intros _; discriminate | intros _; reflexivity]).
  - destruct (existsb (String.eqb n) Object_prototype_keys) eqn:Ei;
      [|discriminate].
    assert (Hin : In n Object_prototype_keys).
    { apply existsb_exists in Ei. destruct Ei as (x & Hx & Hs).
      apply String.eqb_eq in Hs. subst x. exact Hx. }
    destruct (inherited_property n Hin) as (_ & _ & Hnt).
    cbn [option_map new_JsonRpcProvider emit bind ret app fst snd].
    destruct key as [s|];
      [ destruct (Js.truthy (Some s));
        [ unfold new_Wallet, lift;
          destruct (computeAddress host s) as [a|e]; cbn; [|discriminate]
        | cbn ]
      | cbn ];
      intros H; injection H as <-; cbn;
      (split; [reflexivity|]); (split; [right; auto|]);
      (split; [intros E; contradiction
              | intros E; exfalso; apply E; reflexivity]).
Qed.

Lemma constructor_shapes_witness :
  events (constructor Sample.host
            {| config_network := Some "valueOf"; config_privateKey := None |})
  = [ProviderCreated "http://localhost:8545"]
  /\ events (constructor Sample.host
               {| config_network := None; config_privateKey := None |})
     = [ProviderCreated "https://sepolia.base.org"].
Proof.
  split.
  - destruct (constructor_shapes Sample.host
                {| config_network := Some "valueOf";
                   config_privateKey := None |}
                {| network := "valueOf"; privateKey := None;
                   provider := "http://localhost:8545";
                   contracts := None; explorer := None; wallet := None |})
      as (E & _); [reflexivity | exact E].
  - destruct (constructor_shapes Sample.host
                {| config_network := None; config_privateKey := None |}
                Sample.reader)
      as (E & _); [reflexivity | exact E].
Defined.

(** X19: the reads of the write functions.  donateUSDC makes no read
    call at all: it sends the transfer without looking at a balance.
    vote reads only through its three guards, in their order, stopping
    at the first guard that ends the call.  createProposal reads nothing
    before it sends, and afterwards at most the count. *)
Theorem write_functions_reads (chain : Ledger.t) (this : MoltDAOSkill) :
  (forall amount, reads (donateUSDC chain this amount) = [])
  /\ (forall proposalId support,
        reads (vote chain this proposalId support) = []
        \/ exists w k n,
             wallet this = Some w /\ contracts this = Some k
             /\ (1 <= n <= 3)%nat
             /\ reads (vote chain this proposalId support)
                = firstn n (vote_reads (Network.governance k)
                              (wallet_address w) proposalId))
  /\ (forall title description,
        reads (createProposal chain this title description) = []
        \/ exists k,
             contracts this = Some k
             /\ reads (createProposal chain this title description)
                = [EthCall (Network.governance k) m_proposalCount]).
Proof.
  split; [|split].
  - intros amount.
    unfold donateUSDC, reads, events, this_contracts, new_Contract, await.
    destruct (String.eqb (network this) "testnet"); [|reflexivity].
    cbn [negb].
    destruct (wallet this) as [w|]; [|reflexivity].
    destruct (contracts this) as [k|]; [|reflexivity].
    cbn [bind ret].
    destruct (Network.usdc k) as [u|]; [|reflexivity].
    cbn [bind ret].
    destruct (Ethers.parseUnits amount 6) as [v|]; [|reflexivity].
    cbn [lift bind ret app].
    destruct (Ledger.transfer chain u (wallet_address w)
                (Network.governance k) v) as [tx|]; cbn; [|reflexivity].
    destruct (Tx.wait tx); reflexivity.
  - intros proposalId support.
    unfold vote, reads, events, this_contracts, await, vote_reads.
    destruct (wallet this) as [w|]; [|left; reflexivity].
    destruct (contracts this) as [k|]; [|left; reflexivity].
    right. exists w, k. cbn [bind ret].
    destruct (Ledger.isProposalActive chain (Network.governance k) proposalId)
      as [[|]|];
      [| exists 1%nat; repeat split; try lia; reflexivity
       | exists 1%nat; repeat split; try lia; reflexivity].
    cbn [negb].
    destruct (Ledger.hasUserVoted chain (Network.governance k) proposalId
                (wallet_address w)) as [[|]|];
      [ exists 2%nat; repeat split; try lia; reflexivity
      | | exists 2%nat; repeat split; try lia; reflexivity].
    exists 3%nat. do 2 (split; [reflexivity|]). split; [lia|].
    destruct (Ledger.getVotingPower chain (Network.governance k)
                (wallet_address w)) as [power|]; [|reflexivity].
    cbn [bind]. destruct (power =? 0); [reflexivity|].
    destruct (Ledger.vote chain (Network.governance k) (wallet_address w)
                proposalId support) as [tx|]; cbn; [|reflexivity].
    destruct (Tx.wait tx); reflexivity.
  - intros title description.
    unfold createProposal, reads, events, this_contracts, await.
    destruct (wallet this) as [w|]; [|left; reflexivity].
    destruct (contracts this) as [k|]; [|left; reflexivity].
    cbn [bind ret].
    destruct (Ledger.createProposal chain (Network.governance k)
                (wallet_address w) title description) as [tx|];
      cbn; [|left; reflexivity].
    destruct (Tx.wait tx); cbn; [|left; reflexivity].
    right. exists k. split; [reflexivity|].
    destruct (Ledger.proposalCount chain (Network.governance k)); reflexivity.
Qed.
